(** * pyflashair: a client for the FlashAir SD-card HTTP protocol

    A shallow embedding of [pyflashair.py] (class [FlashAir]) and the
    properties of its listing decoder, attribute and date/time codec, tree
    walker and sync engine.

    Python 2 byte strings ([str]) are lists of [ascii]; Python integers are
    [Z]; exceptions are an error result. *)

From Stdlib Require Import ZArith List Ascii String Lia Bool.
From Stdlib Require Import DecimalString.
From stdpp Require Import gmap strings list.

Open Scope Z_scope.

(** ** Python values *)

Abbreviation str := (list ascii).

(** A string literal of the source. *)
Definition lit (s : string) : str := list_ascii_of_string s.

(** The exceptions the program can raise or let through. *)
Inductive exn : Type :=
  | AssertionError   (* a failed [assert] *)
  | IndexError       (* [items[k]] out of range *)
  | ValueError       (* [int(...)], [datetime.datetime(...)], [raise ValueError],
                        and [UnicodeDecodeError], which is a [ValueError] *)
  | OSError          (* [os.mkdir], [os.stat] *)
  | IOError          (* [open(..., 'wb')] *)
  | URLError.        (* [urllib2.urlopen] *)

Inductive res (A : Type) : Type :=
  | Ok (a : A)
  | Raise (e : exn).
Arguments Ok {A} a.
Arguments Raise {A} e.

Definition res_bind {A B} (r : res A) (k : A -> res B) : res B :=
  match r with
  | Ok a => k a
  | Raise e => Raise e
  end.

Notation "x <-? r ; k" := (res_bind r (fun x => k))
  (at level 100, r at next level, right associativity).

(** [bool(n)] on an integer. *)
Definition py_bool (n : Z) : bool := negb (n =? 0).

(** ** [datetime.datetime] of the Python library *)

Record datetime : Type := mk_datetime {
  year : Z; month : Z; day : Z; hour : Z; minute : Z; second : Z
}.

Definition MINYEAR : Z := 1.
Definition MAXYEAR : Z := 9999.

Definition is_leap (y : Z) : bool :=
  (y mod 4 =? 0) && (negb (y mod 100 =? 0) || (y mod 400 =? 0)).

Definition days_in_month (y m : Z) : Z :=
  if m =? 2 then (if is_leap y then 29 else 28)
  else if (m =? 4) || (m =? 6) || (m =? 9) || (m =? 11) then 30
  else 31.

Definition check_date_fields (y m d : Z) : bool :=
  (MINYEAR <=? y) && (y <=? MAXYEAR) &&
  (1 <=? m) && (m <=? 12) &&
  (1 <=? d) && (d <=? days_in_month y m).

Definition check_time_fields (h mi s : Z) : bool :=
  (0 <=? h) && (h <=? 23) && (0 <=? mi) && (mi <=? 59) && (0 <=? s) && (s <=? 59).

(** The constructor [datetime.datetime(year, month, day, hour, minute, second)]:
    a [ValueError] when a field is out of range, never a clamped value. *)
Definition datetime_new (y m d h mi s : Z) : res datetime :=
  if check_date_fields y m d && check_time_fields h mi s
  then Ok (mk_datetime y m d h mi s)
  else Raise ValueError.

(** ** The records of the source *)

(** [Attributes = namedtuple('Attributes', 'archive dir volume system hidden ro')] *)
Record Attributes : Type := mk_Attributes {
  archive : bool; dir : bool; volume : bool; system : bool; hidden : bool; ro : bool
}.

(** [File = namedtuple('File', 'dir name size attr datetime')] *)
Record File : Type := mk_File {
  f_dir : str; f_name : str; f_size : Z; f_attr : Attributes; f_datetime : datetime
}.

(** ** The codec *)

(** [FlashAir._DecodeAttributes] *)
Definition _DecodeAttributes (attr : Z) : Attributes :=
  {| archive := py_bool (Z.land attr (Z.shiftl 1 5));
     dir     := py_bool (Z.land attr (Z.shiftl 1 4));
     volume  := py_bool (Z.land attr (Z.shiftl 1 3));
     system  := py_bool (Z.land attr (Z.shiftl 1 2));
     hidden  := py_bool (Z.land attr (Z.shiftl 1 1));
     ro      := py_bool (Z.land attr (Z.shiftl 1 0)) |}.

(** [FlashAir._DecodeDateAndTime] *)
Definition _DecodeDateAndTime (d t : Z) : res datetime :=
  let year := Z.land (Z.shiftr d 9) 127 + 1980 in
  let month := Z.land (Z.shiftr d 5) 15 in
  let day := Z.land d 31 in
  let hour := Z.land (Z.shiftr t 11) 31 in
  let minute := Z.land (Z.shiftr t 5) 63 in
  let second := Z.land t 31 * 2 in
  datetime_new year month day hour minute second.

(** The packed words of the wire format, used to state round trips. *)
Definition pack_date (y m d : Z) : Z :=
  Z.lor (Z.lor (Z.shiftl (y - 1980) 9) (Z.shiftl m 5)) d.

Definition pack_time (h mi s : Z) : Z :=
  Z.lor (Z.lor (Z.shiftl h 11) (Z.shiftl mi 5)) (s / 2).

(** The attribute byte rebuilt from the six flags. *)
Definition attr_byte (a : Attributes) : Z :=
  32 * Z.b2z (archive a) + 16 * Z.b2z (dir a) + 8 * Z.b2z (volume a) +
  4 * Z.b2z (system a) + 2 * Z.b2z (hidden a) + Z.b2z (ro a).

(** ** String operations of the Python library *)

(** The whitespace of [str.strip()] and [int()]: space, \t, \n, \v, \f, \r. *)
Definition is_space (c : ascii) : bool :=
  let n := Z.of_N (N_of_ascii c) in
  (n =? 32) || ((9 <=? n) && (n <=? 13)).

Fixpoint lstrip (s : str) : str :=
  match s with
  | c :: s' => if is_space c then lstrip s' else s
  | [] => []
  end.

Definition rstrip (s : str) : str := rev (lstrip (rev s)).

(** [s.strip()] *)
Definition strip (s : str) : str := rstrip (lstrip s).

(** The text before and after the first [sep] of [s], if there is one. *)
Fixpoint break_at (sep : ascii) (s : str) : option (str * str) :=
  match s with
  | [] => None
  | c :: s' =>
      if Ascii.eqb c sep then Some ([], s')
      else match break_at sep s' with
           | Some (a, b) => Some (c :: a, b)
           | None => None
           end
  end.

(** [s.split(sep, maxsplit)] for a one-character separator. *)
Fixpoint split (sep : ascii) (maxsplit : nat) (s : str) : list str :=
  match maxsplit with
  | O => [s]
  | S n =>
      match break_at sep s with
      | None => [s]
      | Some (a, b) => a :: split sep n b
      end
  end.

(** [s.rsplit(sep, maxsplit)]: the same cuts, counted from the right. *)
Definition rsplit (sep : ascii) (maxsplit : nat) (s : str) : list str :=
  rev (map (@rev ascii) (split sep maxsplit (rev s))).

Definition digit_val (c : ascii) : option Z :=
  let n := Z.of_N (N_of_ascii c) in
  if (48 <=? n) && (n <=? 57) then Some (n - 48) else None.

Fixpoint digits_val (acc : Z) (s : str) : option Z :=
  match s with
  | [] => Some acc
  | c :: s' =>
      match digit_val c with
      | Some v => digits_val (10 * acc + v) s'
      | None => None
      end
  end.

Definition unsigned_val (s : str) : res Z :=
  match s with
  | [] => Raise ValueError
  | _ => match digits_val 0 s with
         | Some v => Ok v
         | None => Raise ValueError
         end
  end.

(** [int(s)] on a string, base 10: surrounding whitespace, an optional sign,
    then at least one decimal digit; anything else is a [ValueError]. *)
Definition py_int (s : str) : res Z :=
  match strip s with
  | "+"%char :: ds => unsigned_val ds
  | "-"%char :: ds => v <-? unsigned_val ds; Ok (- v)
  | ds => unsigned_val ds
  end.

(** A byte string of ASCII bytes only. *)
Definition is_ascii (s : str) : bool :=
  forallb (fun c => (N_of_ascii c <? 128)%N) s.

(** The decoding of a byte string to text with the default codec, as an
    operation on a byte string with a text argument does it (the literals
    of the source are text, by [unicode_literals]): a byte above 127 is a
    [UnicodeDecodeError].  Text of ASCII characters is kept as its bytes. *)
Definition ascii_decode (s : str) : res str :=
  if is_ascii s then Ok s else Raise ValueError.

(** [l[k]] for a non-negative constant index. *)
Definition getitem {A} (l : list A) (k : nat) : res A :=
  match l !! k with
  | Some x => Ok x
  | None => Raise IndexError
  end.

(** ['%d' % n] *)
Definition fmt_d (n : Z) : str :=
  list_ascii_of_string (NilZero.string_of_int (Z.to_int n)).

(** ['%0wd' % n] for the non-negative fields of a date. *)
Definition fmt_0d (w : nat) (n : Z) : str :=
  let s := fmt_d n in repeat "0"%char (w - length s)%nat ++ s.

(** [str(dt)] for a [datetime] without microseconds or time zone. *)
Definition datetime_str (dt : datetime) : str :=
  fmt_0d 4 (year dt) ++ lit "-" ++ fmt_0d 2 (month dt) ++ lit "-" ++
  fmt_0d 2 (day dt) ++ lit " " ++ fmt_0d 2 (hour dt) ++ lit ":" ++
  fmt_0d 2 (minute dt) ++ lit ":" ++ fmt_0d 2 (second dt).

Definition lower_char (c : ascii) : ascii :=
  let n := N_of_ascii c in
  if ((65 <=? n) && (n <=? 90))%N then ascii_of_N (n + 32) else c.

(** [s.lower()] *)
Definition lower (s : str) : str := map lower_char s.

Definition startswith_slash (s : str) : bool :=
  match s with
  | "/"%char :: _ => true
  | _ => false
  end.

Definition endswith_slash (s : str) : bool := startswith_slash (rev s).

(** [os.path.join(a, b)] of [posixpath]. *)
Definition os_path_join (a b : str) : str :=
  if startswith_slash b then b
  else if bool_decide (a = []) || endswith_slash a then a ++ b
  else a ++ lit "/" ++ b.

(** [fh.readlines()]: the body cut after each newline, newlines kept. *)
Fixpoint readlines_go (cur : str) (s : str) : list str :=
  match s with
  | [] => match cur with [] => [] | _ => [rev cur] end
  | c :: s' =>
      if Ascii.eqb c "010"%char then rev (c :: cur) :: readlines_go [] s'
      else readlines_go (c :: cur) s'
  end.

Definition readlines (body : str) : list str := readlines_go [] body.

(** ** The world the client runs in *)

(** The local filesystem: path strings, as written, to nodes.  Symbolic links
    and alternative spellings of one path are outside the model. *)
Inductive node : Type :=
  | NDir
  | NFile (contents : str).

(** What the process does that can be observed from outside. *)
Inductive event : Type :=
  | EvPrint (line : str)      (* [print(line)] *)
  | EvUrlopen (url : str).    (* [urllib2.urlopen(url, timeout=...)] *)

Record world : Type := mk_world {
  fs : gmap str node;
  trace : list event
}.

(** The card behind [urllib2.urlopen]: the body it serves for a URL, or the
    exception the request ends in.  The card answers a URL the same way each
    time it is asked. *)
Abbreviation network := (str -> res str).

(** How a call ends: it returns, it raises, or the recursion bound of the
    model is used up. *)
Inductive outcome (A : Type) : Type :=
  | Done (a : A)
  | Raised (e : exn)
  | OutOfFuel.
Arguments Done {A} a.
Arguments Raised {A} e.
Arguments OutOfFuel {A}.

Definition M (A : Type) : Type := world -> outcome A * world.

Definition ret {A} (a : A) : M A := fun w => (Done a, w).

Definition bind {A B} (m : M A) (k : A -> M B) : M B :=
  fun w =>
    match m w with
    | (Done a, w') => k a w'
    | (Raised e, w') => (Raised e, w')
    | (OutOfFuel, w') => (OutOfFuel, w')
    end.

Definition raise {A} (e : exn) : M A := fun w => (Raised e, w).

Definition out_of_fuel {A} : M A := fun w => (OutOfFuel, w).

Definition lift {A} (r : res A) : M A :=
  match r with
  | Ok a => ret a
  | Raise e => raise e
  end.

Notation "x <- m ;; k" := (bind m (fun x => k))
  (at level 100, m at next level, right associativity).
Notation "m ;; k" := (bind m (fun _ => k))
  (at level 100, right associativity).

(** [for x in l: body(x)] *)
Fixpoint for_each {A} (l : list A) (body : A -> M unit) : M unit :=
  match l with
  | [] => ret tt
  | x :: l' => body x ;; for_each l' body
  end.

Definition emit (e : event) : M unit :=
  fun w => (Done tt, mk_world (fs w) (trace w ++ [e])).

(** [print(s)] *)
Definition print (s : str) : M unit := emit (EvPrint s).

(** [urllib2.urlopen(url, timeout=...)], then reading the whole response. *)
Definition urlopen (net : network) (url : str) : M str :=
  emit (EvUrlopen url) ;; lift (net url).

Definition is_dir_node (o : option node) : bool :=
  match o with
  | Some NDir => true
  | _ => false
  end.

(** [os.path.exists(p)] *)
Definition os_path_exists (p : str) : M bool :=
  fun w => (Done (bool_decide (is_Some (fs w !! p))), w).

(** [os.path.isdir(p)] *)
Definition os_path_isdir (p : str) : M bool :=
  fun w => (Done (is_dir_node (fs w !! p)), w).

(** The size [os.stat] reports for a directory: a constant of the
    filesystem, 4096 on the common ones. *)
Definition DIR_ST_SIZE : Z := 4096.

Definition node_size (n : node) : Z :=
  match n with
  | NDir => DIR_ST_SIZE
  | NFile contents => Z.of_nat (length contents)
  end.

(** [os.stat(p).st_size] *)
Definition os_stat_st_size (p : str) : M Z :=
  fun w =>
    match fs w !! p with
    | Some n => (Done (node_size n), w)
    | None => (Raised OSError, w)
    end.

(** The directory a path is created in: [None] for a name in the current
    directory. *)
Definition parent_path (p : str) : option str :=
  match break_at "/"%char (rev p) with
  | None => None
  | Some (_, []) => Some (lit "/")
  | Some (_, rd) => Some (rev rd)
  end.

Definition parent_is_dir (m : gmap str node) (p : str) : bool :=
  match parent_path p with
  | None => true
  | Some d => is_dir_node (m !! d)
  end.

(** [os.mkdir(p)] *)
Definition os_mkdir (p : str) : M unit :=
  fun w =>
    match fs w !! p with
    | Some _ => (Raised OSError, w)
    | None =>
        if parent_is_dir (fs w) p
        then (Done tt, mk_world (<[p := NDir]> (fs w)) (trace w))
        else (Raised OSError, w)
    end.

(** [with open(p, 'wb') as fh: fh.write(contents)] *)
Definition write_file (p : str) (contents : str) : M unit :=
  fun w =>
    match fs w !! p with
    | Some NDir => (Raised IOError, w)
    | Some (NFile _) => (Done tt, mk_world (<[p := NFile contents]> (fs w)) (trace w))
    | None =>
        if parent_is_dir (fs w) p
        then (Done tt, mk_world (<[p := NFile contents]> (fs w)) (trace w))
        else (Raised IOError, w)
    end.

(** ** class FlashAir *)

Definition DEFAULT_TIMEOUT : Z := 5.

Definition OP_GET_FILE_LIST : Z := 100.

Record FlashAir : Type := mk_FlashAir {
  _address : str;
  _timeout : Z
}.

(** [if extra_args:] on [None] or a string. *)
Definition truthy (o : option str) : bool :=
  match o with
  | Some (_ :: _) => true
  | _ => false
  end.

(** [FlashAir._BuildOpUrl] *)
Definition _BuildOpUrl (self : FlashAir) (op : Z) (extra_args : option str) : str :=
  let url := lit "http://" ++ _address self ++ lit "/command.cgi?op=" ++ fmt_d op in
  if truthy extra_args then url ++ lit "&" ++ default [] extra_args else url.

(** [FlashAir._BuildFileUrl] *)
Definition _BuildFileUrl (self : FlashAir) (path : str) : str :=
  lit "http://" ++ _address self ++ lit "/" ++ path.

(** [FlashAir._GetOp] *)
Definition _GetOp (self : FlashAir) (net : network) (op : Z)
    (extra_args : option str) : M (list str) :=
  let url := _BuildOpUrl self op extra_args in
  body <- urlopen net url ;;
  ret (map strip (readlines body)).

(** [FlashAir._GetFile] *)
Definition _GetFile (self : FlashAir) (net : network) (path : str) : M str :=
  let url := _BuildFileUrl self path in
  urlopen net url.

Definition HEADER : str := lit "WLANSD_FILELIST".

(** The body of the loop of [FlashAir.GetFileList]: one line to one [File].
    [line.rsplit(',', 6)] has a text separator, so the line is decoded
    first. *)
Definition GetFileList_line (line : str) : res File :=
  text <-? ascii_decode line;
  let items := rsplit ","%char 6 text in
  dir_ <-? getitem items 0;
  name <-? getitem items 1;
  size <-? (s <-? getitem items 2; py_int s);
  attr <-? (s <-? getitem items 3; py_int s);
  d <-? (s <-? getitem items 4; py_int s);
  t <-? (s <-? getitem items 5; py_int s);
  dt <-? _DecodeDateAndTime d t;
  Ok (mk_File dir_ name size (_DecodeAttributes attr) dt).

(** [for line in lines[1:]: results.append(...)] *)
Fixpoint GetFileList_loop (lines : list str) (results : list File) : res (list File) :=
  match lines with
  | [] => Ok results
  | line :: rest =>
      f <-? GetFileList_line line;
      GetFileList_loop rest (results ++ [f])
  end.

(** [FlashAir.GetFileList] from the [assert] on: the lines of the response
    to the list of [File]. *)
Definition GetFileList_decode (lines : list str) : res (list File) :=
  l0 <-? getitem lines 0;
  if bool_decide (l0 = HEADER)
  then GetFileList_loop (drop 1 lines) []
  else Raise AssertionError.

(** [FlashAir.GetFileList] *)
Definition GetFileList (self : FlashAir) (net : network) (directory : str)
    : M (list File) :=
  lines <- _GetOp self net OP_GET_FILE_LIST (Some (lit "DIR=" ++ directory)) ;;
  lift (GetFileList_decode lines).

(** The line [RecursiveFileList] prints for an entry. *)
Definition entry_line (levels : Z) (f : File) : str :=
  let s := repeat " "%char (Z.to_nat (levels * 2)) in
  let s := s ++ f_name f in
  let s := if dir (f_attr f) then s ++ lit "/"
           else s ++ lit " | " ++ fmt_d (f_size f) ++ lit " bytes" in
  s ++ lit " | " ++ datetime_str (f_datetime f).

(** [FlashAir.RecursiveFileList]; [fuel] bounds the depth of the recursion. *)
Fixpoint RecursiveFileList (fuel : nat) (self : FlashAir) (net : network)
    (directory : str) (levels : Z) : M unit :=
  match fuel with
  | O => out_of_fuel
  | S fuel' =>
      files <- GetFileList self net directory ;;
      for_each files (fun f =>
        print (entry_line levels f) ;;
        if dir (f_attr f)
        then RecursiveFileList fuel' self net
               (directory ++ lit "/" ++ f_name f) (levels + 1)
        else ret tt)
  end.

(** [local_file] of [Sync]: the joined path, lower-cased as a whole when
    [force_lowercase] is set. *)
Definition local_file_of (local_dir name : str) (force_lowercase : bool) : str :=
  let local_file := os_path_join local_dir name in
  if force_lowercase then lower local_file else local_file.

(** The [else] branch of the loop of [Sync]: an entry that is not a directory. *)
Definition Sync_file (self : FlashAir) (net : network)
    (remote_file local_file : str) (f : File) : M unit :=
  ex <- os_path_exists local_file ;;
  fetch <- (if negb ex
            then print (lit "  does not exist locally, fetching...") ;; ret true
            else sz <- os_stat_st_size local_file ;;
                 if negb (sz =? f_size f)
                 then print (lit "  size differs, fetching...") ;; ret true
                 else ret false) ;;
  if (fetch : bool)
  then contents <- _GetFile self net remote_file ;;
       write_file local_file contents
  else ret tt.

(** The first half of the directory branch of [Sync]: [mkdir] or [assert]. *)
Definition Sync_dir_prepare (local_file : str) : M unit :=
  ex <- os_path_exists local_file ;;
  if negb ex
  then os_mkdir local_file
  else isd <- os_path_isdir local_file ;;
       if (isd : bool) then ret tt else raise AssertionError.

(** The body of the loop of [Sync], with the recursive call as [recurse]. *)
Definition Sync_entry (self : FlashAir) (net : network)
    (recurse : str -> str -> bool -> M unit)
    (remote_dir local_dir : str) (force_lowercase : bool) (f : File) : M unit :=
  print (f_name f) ;;
  let remote_file := os_path_join remote_dir (f_name f) in
  let local_file := local_file_of local_dir (f_name f) force_lowercase in
  if dir (f_attr f)
  then Sync_dir_prepare local_file ;;
       recurse remote_file local_file force_lowercase
  else Sync_file self net remote_file local_file f.

(** [FlashAir.Sync]; [fuel] bounds the depth of the recursion. *)
Fixpoint Sync (fuel : nat) (self : FlashAir) (net : network)
    (remote_dir local_dir : str) (force_lowercase : bool) : M unit :=
  match fuel with
  | O => out_of_fuel
  | S fuel' =>
      print (lit "Syncing " ++ remote_dir ++ lit " -> " ++ local_dir) ;;
      ex <- os_path_exists local_dir ;;
      if negb ex then raise ValueError
      else
        files <- GetFileList self net remote_dir ;;
        for_each files
          (Sync_entry self net (Sync fuel' self net)
             remote_dir local_dir force_lowercase)
  end.

(** ** Definitions used to state the properties *)

(** [P] holds on the [n] integers from [z] on; a checker for finite ranges. *)
Fixpoint all_from (n : nat) (z : Z) (P : Z -> bool) : bool :=
  match n with
  | O => true
  | S n' => P z && all_from n' (z + 1) P
  end.

(** Whether six fields are a date and time of the calendar. *)
Definition valid_fields (y m d h mi s : Z) : bool :=
  check_date_fields y m d && check_time_fields h mi s.

(** *** Lines and fields *)

(** [sep.join(fields)] for a one-character separator. *)
Fixpoint join (sep : ascii) (fields : list str) : str :=
  match fields with
  | [] => []
  | [f] => f
  | f :: rest => f ++ sep :: join sep rest
  end.

(** The line of a listing made of six fields. *)
Definition data_line (dir_ name size attr d t : str) : str :=
  join ","%char [dir_; name; size; attr; d; t].

(** How many times [sep] occurs in [s]. *)
Definition count_char (sep : ascii) (s : str) : nat :=
  length (filter (fun c => c = sep) s).

(** A character [int] can read: a digit, a sign or whitespace. *)
Definition numeric_char (c : ascii) : bool :=
  match digit_val c with
  | Some _ => true
  | None => is_space c || Ascii.eqb c "+" || Ascii.eqb c "-"
  end.

(** A data line the decoder cannot take: fewer than six comma-separated
    fields, or a third to sixth item of the split (the size, attribute, date
    and time the decoder reads) that [int] refuses. *)
Definition malformed (line : str) : Prop :=
  (count_char ","%char line < 5)%nat \/
  exists (k : nat) (s : str),
    (2 <= k <= 5)%nat /\ rsplit ","%char 6 line !! k = Some s /\
    py_int s = Raise ValueError.

(** The errors a bad data line ends in. *)
Definition is_parse_error (e : exn) : Prop := e = IndexError \/ e = ValueError.

(** *** Runs *)

(** The world after more events. *)
Definition logged (w : world) (evs : list event) : world :=
  mk_world (fs w) (trace w ++ evs).

(** The URLs asked for, in order. *)
Definition requested (evs : list event) : list str :=
  flat_map (fun e => match e with EvUrlopen u => [u] | EvPrint _ => [] end) evs.

(** The lines printed, in order. *)
Definition printed (evs : list event) : list str :=
  flat_map (fun e => match e with EvPrint l => [l] | EvUrlopen _ => [] end) evs.

Definition to_outcome {A} (r : res A) : outcome A :=
  match r with
  | Ok a => Done a
  | Raise e => Raised e
  end.

(** The URL [GetFileList] asks for. *)
Definition list_url (self : FlashAir) (directory : str) : str :=
  _BuildOpUrl self OP_GET_FILE_LIST (Some (lit "DIR=" ++ directory)).

(** What [GetFileList] returns for a directory, as a function of the card. *)
Definition listing (self : FlashAir) (net : network) (directory : str)
    : res (list File) :=
  body <-? net (list_url self directory);
  GetFileList_decode (map strip (readlines body)).

(** *** Sync *)

(** The decision of [Sync] for an entry that is not a directory: fetch when
    the local path is absent or its size is not the size of the record. *)
Definition needs_fetch (m : gmap str node) (local_file : str) (f : File) : Prop :=
  m !! local_file = None \/
  exists n, m !! local_file = Some n /\ node_size n <> f_size f.

(** The fetch of [Sync_file], once decided. *)
Definition fetch_and_write (self : FlashAir) (net : network)
    (remote_file local_file : str) (msg : str) (w : world) : outcome unit * world :=
  let w1 := logged w [EvPrint msg; EvUrlopen (_BuildFileUrl self remote_file)] in
  match net (_BuildFileUrl self remote_file) with
  | Ok contents => write_file local_file contents w1
  | Raise e => (Raised e, w1)
  end.









(** *** Trees of the card *)

(** A directory tree of the card: an entry and, below a directory, the
    entries of its listing. *)
#[warnings="-register-all"] Inductive rtree : Type :=
  | RNode (entry : File) (children : list rtree).

Definition root (t : rtree) : File :=
  match t with
  | RNode f _ => f
  end.

(** The entries of a tree in depth-first pre-order, each with its depth. *)
Fixpoint preorder (levels : Z) (t : rtree) : list (Z * File) :=
  match t with
  | RNode f cs => (levels, f) :: flat_map (preorder (levels + 1)) cs
  end.

Fixpoint height (t : rtree) : nat :=
  match t with
  | RNode _ cs => S (fold_right (fun c h => Nat.max (height c) h) O cs)
  end.

Definition forest_height (ts : list rtree) : nat :=
  fold_right (fun c h => Nat.max (height c) h) O ts.

(** The card reports the tree [t] as an entry of [directory]: below an entry
    that is a directory, the listing of [directory + '/' + name] is the roots
    of the children, each reported in turn; other entries have nothing
    below. *)
Fixpoint reports (self : FlashAir) (net : network) (directory : str)
    (t : rtree) : Prop :=
  match t with
  | RNode f cs =>
      if dir (f_attr f)
      then listing self net (directory ++ lit "/" ++ f_name f) = Ok (map root cs) /\
           fold_right
             (fun c P => reports self net (directory ++ lit "/" ++ f_name f) c /\ P)
             True cs
      else cs = []
  end.

(** The card reports the forest [ts] as the content of [directory]. *)
Definition reports_forest (self : FlashAir) (net : network) (directory : str)
    (ts : list rtree) : Prop :=
  listing self net directory = Ok (map root ts) /\
  fold_right (fun c P => reports self net directory c /\ P) True ts.

(** The lines of a walk. *)
Definition entry_lines (es : list (Z * File)) : list str :=
  map (fun e => entry_line (fst e) (snd e)) es.

(** *** A card and local trees for the examples *)

Definition card : FlashAir := mk_FlashAir (lit "flashair") DEFAULT_TIMEOUT.

(** A network serving one body for one URL, and [rest] for the others. *)
Definition serve (url body : str) (rest : network) : network :=
  fun u => if bool_decide (u = url) then Ok body else rest u.

Definition no_network : network := fun _ => Raise URLError.

Definition CRLF : str := ["013"%char; "010"%char].

(** A response: the header and the given data lines, each ended by CR LF. *)
Definition response (data : list str) : str :=
  HEADER ++ CRLF ++ flat_map (fun l => l ++ CRLF) data.

(** A good data line: [IMG.JPG] in [/DCIM], 10 bytes, archive,
    2020-03-15 10:30:00. *)
Definition good_line : str := lit "/DCIM,IMG.JPG,10,32,20591,21440".

Definition good_file : File :=
  mk_File (lit "/DCIM") (lit "IMG.JPG") 10 (_DecodeAttributes 32)
          (mk_datetime 2020 3 15 10 30 0).

(** The name [caf\xe9.jpg]: Latin-1 bytes, one of them above 127. *)
Definition latin1_name : str := lit "caf" ++ ["233"%char] ++ lit ".jpg".

(** A data line with seven fields: one more than the format has. *)
Definition seven_field_line : str := lit "/DCIM,IMG.JPG,10,32,33,0,999".

(** A data line with too few fields. *)
Definition short_line : str := lit "/DCIM,IMG.JPG,10".

Definition empty_world : world := mk_world ∅ [].

(** A card with one file, [/DCIM/IMG.JPG] of ten bytes. *)
Definition one_file_net : network :=
  serve (list_url card (lit "/DCIM")) (response [good_line])
    (serve (_BuildFileUrl card (lit "/DCIM/IMG.JPG")) (lit "0123456789") no_network).

(** A local tree with the target directory [/mnt] and a copy of the file. *)
Definition local_copy (contents : str) : world :=
  mk_world (<[lit "/mnt/img.jpg" := NFile contents]>
              (<[lit "/mnt" := NDir]> (<[lit "/" := NDir]> ∅))) [].

(** A card with a directory [a] holding [c.TXT], and a file [b.txt].  The
    walker asks for [//a] ([directory + '/' + name] from [/]) where [Sync]
    asks for [/a] ([os.path.join]); the card answers both. *)
Definition tree_net : network :=
  serve (list_url card (lit "/"))
    (response [lit "/,a,0,16,20591,21440"; lit "/,b.txt,10,32,20591,21440"])
  (serve (list_url card (lit "/a")) (response [lit "/a,c.TXT,3,32,20591,21440"])
  (serve (list_url card (lit "//a")) (response [lit "//a,c.TXT,3,32,20591,21440"])
  (serve (_BuildFileUrl card (lit "/a/c.TXT")) (lit "xyz")
  (serve (_BuildFileUrl card (lit "/b.txt")) (lit "0123456789") no_network)))).

(** A local tree with the target directory [/mnt] and, when given, a node at
    [/mnt/a]. *)
Definition local_tree (a : option node) : world :=
  mk_world (match a with
            | Some n => <[lit "/mnt/a" := n]>
            | None => fun m => m
            end (<[lit "/mnt" := NDir]> (<[lit "/" := NDir]> ∅))) [].


(** The tree of [tree_net] below [/], as the walker sees it. *)
Definition entry_a : File :=
  mk_File (lit "/") (lit "a") 0 (_DecodeAttributes 16) (mk_datetime 2020 3 15 10 30 0).

Definition entry_c : File :=
  mk_File (lit "//a") (lit "c.TXT") 3 (_DecodeAttributes 32)
          (mk_datetime 2020 3 15 10 30 0).

Definition entry_b : File :=
  mk_File (lit "/") (lit "b.txt") 10 (_DecodeAttributes 32)
          (mk_datetime 2020 3 15 10 30 0).

Definition tree_forest : list rtree :=
  [RNode entry_a [RNode entry_c []]; RNode entry_b []].

(** ** Definitions used to state further properties *)

(** *** Worlds before and after a run *)

(** Every run of [m] takes a world to a world that [R] relates to it,
    whatever the run ends in. *)
Definition run_rel {A} (R : world -> world -> Prop) (m : M A) : Prop :=
  forall w o w', m w = (o, w') -> R w w'.

(** The local tree is as it was. *)
Definition same_fs (w w' : world) : Prop := fs w' = fs w.

(** The trace grew by events that are all in [Q]. *)
Definition emits (Q : event -> Prop) (w w' : world) : Prop :=
  exists evs, trace w' = trace w ++ evs /\ Forall Q evs.

(** A directory is still a directory and a file still a file. *)
Definition keeps_kind (o o' : option node) : Prop :=
  match o with
  | Some NDir => o' = Some NDir
  | Some (NFile _) => exists contents, o' = Some (NFile contents)
  | None => True
  end.

Definition keeps_kinds (w w' : world) : Prop :=
  forall p, keeps_kind (fs w !! p) (fs w' !! p).

(** A line printed, or a request to the card of [self]. *)
Definition card_event (self : FlashAir) (e : event) : Prop :=
  match e with
  | EvPrint _ => True
  | EvUrlopen u => exists rest, u = lit "http://" ++ _address self ++ lit "/" ++ rest
  end.

(** A line printed, or a request for a listing of the card of [self]. *)
Definition listing_event (self : FlashAir) (e : event) : Prop :=
  match e with
  | EvPrint _ => True
  | EvUrlopen u => exists directory, u = list_url self directory
  end.

(** *** The command line *)



(* ===================================================================== *)
(** * Properties *)
(* ===================================================================== *)

(** ** Attribute and date/time codec *)

Lemma all_from_spec n : forall z P,
  all_from n z P = true -> forall x, z <= x < z + Z.of_nat n -> P x = true.
Proof.
  induction n as [|n IH]; intros z P H x Hx; [lia|].
  simpl in H. apply andb_true_iff in H as [Hz Hrest].
  destruct (Z.eq_dec x z) as [->|Hne]; [exact Hz|].
  apply (IH (z + 1) P Hrest). lia.
Qed.

Lemma all_from_range n z P x :
  all_from (Z.to_nat n) z P = true -> z <= x < z + n -> P x = true.
Proof.
  intros H Hx. apply (all_from_spec _ _ _ H). lia.
Qed.

Lemma py_bool_land_bit a k :
  0 <= k -> py_bool (Z.land a (Z.shiftl 1 k)) = Z.testbit a k.
Proof.
  intros Hk. rewrite Z.shiftl_1_l. unfold py_bool.
  destruct (Z.testbit a k) eqn:E.
  - apply negb_true_iff, Z.eqb_neq. intros H0.
    assert (Hb : Z.testbit (Z.land a (2 ^ k)) k = true).
    { rewrite Z.land_spec, E, Z.pow2_bits_true by lia. reflexivity. }
    rewrite H0, Z.bits_0 in Hb. discriminate.
  - apply negb_false_iff, Z.eqb_eq. apply Z.bits_inj'. intros n Hn.
    rewrite Z.land_spec, Z.bits_0, Z.pow2_bits_eqb by lia.
    destruct (Z.eqb_spec k n) as [->|_].
    + rewrite E. reflexivity.
    + apply andb_false_r.
Qed.

Lemma DecodeAttributes_bits attr :
  _DecodeAttributes attr =
  mk_Attributes (Z.testbit attr 5) (Z.testbit attr 4) (Z.testbit attr 3)
                (Z.testbit attr 2) (Z.testbit attr 1) (Z.testbit attr 0).
Proof.
  unfold _DecodeAttributes. rewrite !py_bool_land_bit by lia. reflexivity.
Qed.

Lemma testbit_low_add a hi k :
  0 <= k < 6 -> Z.testbit (a + 64 * hi) k = Z.testbit a k.
Proof.
  intros Hk.
  rewrite <- (Z.mod_pow2_bits_low (a + 64 * hi) 6 k) by lia.
  rewrite <- (Z.mod_pow2_bits_low a 6 k) by lia.
  f_equal. change (2 ^ 6) with 64.
  rewrite (Z.mul_comm 64 hi). apply Z_mod_plus_full.
Qed.

Lemma attr_byte_roundtrip attr :
  0 <= attr < 64 -> attr_byte (_DecodeAttributes attr) = attr.
Proof.
  intros H.
  assert (Hall : all_from (Z.to_nat 64) 0 (fun a => attr_byte (_DecodeAttributes a) =? a) = true)
    by (vm_compute; reflexivity).
  apply Z.eqb_eq. apply (all_from_range _ _ _ attr Hall). lia.
Qed.

(** C2. For every attribute byte in 0..63 the six decoded flags are bits
    5 (archive), 4 (directory), 3 (volume label), 2 (system), 1 (hidden) and
    0 (read-only) of the input, the flags give back exactly the byte, and
    whatever is added above bit 5 changes no flag; [0b100001] decodes to
    archive and read-only only. *)
Theorem C2_decode_attributes_bits (attr : Z) :
  0 <= attr < 64 ->
  (archive (_DecodeAttributes attr) = Z.testbit attr 5 /\
   dir (_DecodeAttributes attr) = Z.testbit attr 4 /\
   volume (_DecodeAttributes attr) = Z.testbit attr 3 /\
   system (_DecodeAttributes attr) = Z.testbit attr 2 /\
   hidden (_DecodeAttributes attr) = Z.testbit attr 1 /\
   ro (_DecodeAttributes attr) = Z.testbit attr 0) /\
  attr_byte (_DecodeAttributes attr) = attr /\
  (forall hi : Z, _DecodeAttributes (attr + 64 * hi) = _DecodeAttributes attr) /\
  _DecodeAttributes 33 = mk_Attributes true false false false false true.
Proof.
  intros H. split; [|split; [|split]].
  - rewrite DecodeAttributes_bits. simpl. repeat split.
  - apply attr_byte_roundtrip, H.
  - intros hi. rewrite !DecodeAttributes_bits.
    rewrite !testbit_low_add by lia. reflexivity.
  - reflexivity.
Qed.

Lemma C2_witness :
  attr_byte (_DecodeAttributes 33) = 33 /\
  _DecodeAttributes (33 + 64 * 3) = _DecodeAttributes 33.
Proof.
  assert (H : 0 <= 33 < 64) by lia.
  destruct (C2_decode_attributes_bits 33 H) as (_ & Hb & Hhi & _).
  split; [exact Hb | exact (Hhi 3)].
Defined.

Lemma date_word_layout d :
  0 <= d < 65536 ->
  Z.land (Z.shiftr d 9) 127 + 1980 = d / 512 + 1980 /\
  Z.land (Z.shiftr d 5) 15 = d / 32 mod 16 /\
  Z.land d 31 = d mod 32 /\
  pack_date (Z.land (Z.shiftr d 9) 127 + 1980) (Z.land (Z.shiftr d 5) 15)
            (Z.land d 31) = d.
Proof.
  intros H.
  assert (Hall : all_from (Z.to_nat 65536) 0 (fun d =>
            (Z.land (Z.shiftr d 9) 127 + 1980 =? d / 512 + 1980) &&
            (Z.land (Z.shiftr d 5) 15 =? d / 32 mod 16) &&
            (Z.land d 31 =? d mod 32) &&
            (pack_date (Z.land (Z.shiftr d 9) 127 + 1980)
               (Z.land (Z.shiftr d 5) 15) (Z.land d 31) =? d)) = true)
    by (vm_compute; reflexivity).
  pose proof (all_from_range _ _ _ d Hall ltac:(lia)) as Hd. cbv beta zeta in Hd.
  rewrite !andb_true_iff, !Z.eqb_eq in Hd. tauto.
Qed.

Lemma time_word_layout t :
  0 <= t < 65536 ->
  Z.land (Z.shiftr t 11) 31 = t / 2048 /\
  Z.land (Z.shiftr t 5) 63 = t / 32 mod 64 /\
  Z.land t 31 * 2 = 2 * (t mod 32) /\
  pack_time (Z.land (Z.shiftr t 11) 31) (Z.land (Z.shiftr t 5) 63)
            (Z.land t 31 * 2) = t.
Proof.
  intros H.
  assert (Hall : all_from (Z.to_nat 65536) 0 (fun t =>
            (Z.land (Z.shiftr t 11) 31 =? t / 2048) &&
            (Z.land (Z.shiftr t 5) 63 =? t / 32 mod 64) &&
            (Z.land t 31 * 2 =? 2 * (t mod 32)) &&
            (pack_time (Z.land (Z.shiftr t 11) 31) (Z.land (Z.shiftr t 5) 63)
               (Z.land t 31 * 2) =? t)) = true)
    by (vm_compute; reflexivity).
  pose proof (all_from_range _ _ _ t Hall ltac:(lia)) as Ht. cbv beta zeta in Ht.
  rewrite !andb_true_iff, !Z.eqb_eq in Ht. tauto.
Qed.

(** Packing then decoding gives the calendar constructor the packed fields
    back, over the whole range of the format. *)
Lemma decode_pack_roundtrip y m d h mi s :
  1980 <= y < 2108 -> 0 <= m < 16 -> 0 <= d < 32 ->
  0 <= h < 32 -> 0 <= mi < 64 -> 0 <= s < 64 -> s mod 2 = 0 ->
  _DecodeDateAndTime (pack_date y m d) (pack_time h mi s) =
  datetime_new y m d h mi s.
Proof.
  intros Hy Hm Hd Hh Hmi Hs Hev.
  assert (HD : all_from (Z.to_nat 128) 1980 (fun y => all_from (Z.to_nat 16) 0 (fun m =>
            all_from (Z.to_nat 32) 0 (fun d =>
              let w := pack_date y m d in
              (Z.land (Z.shiftr w 9) 127 + 1980 =? y) &&
              (Z.land (Z.shiftr w 5) 15 =? m) && (Z.land w 31 =? d)))) = true)
    by (vm_compute; reflexivity).
  assert (HT : all_from (Z.to_nat 32) 0 (fun h => all_from (Z.to_nat 64) 0 (fun mi =>
            all_from (Z.to_nat 32) 0 (fun s2 =>
              let w := pack_time h mi (2 * s2) in
              (Z.land (Z.shiftr w 11) 31 =? h) &&
              (Z.land (Z.shiftr w 5) 63 =? mi) &&
              (Z.land w 31 * 2 =? 2 * s2)))) = true)
    by (vm_compute; reflexivity).
  pose proof (all_from_range _ _ _ y HD ltac:(lia)) as H1. cbv beta zeta in H1.
  pose proof (all_from_range _ _ _ m H1 ltac:(lia)) as H2. cbv beta zeta in H2.
  pose proof (all_from_range _ _ _ d H2 ltac:(lia)) as H3. cbv beta zeta in H3.
  pose proof (all_from_range _ _ _ h HT ltac:(lia)) as G1. cbv beta zeta in G1.
  pose proof (all_from_range _ _ _ mi G1 ltac:(lia)) as G2. cbv beta zeta in G2.
  assert (Hs2 : 2 * (s / 2) = s) by (pose proof (Z.div_mod s 2); lia).
  pose proof (all_from_range _ _ _ (s / 2) G2 ltac:(lia)) as G3. cbv beta zeta in G3.
  rewrite Hs2 in G3.
  rewrite !andb_true_iff, !Z.eqb_eq in H3, G3.
  destruct H3 as [[Ey Em] Ed]. destruct G3 as [[Eh Emi] Es].
  unfold _DecodeDateAndTime. rewrite Ey, Em, Ed, Eh, Emi, Es. reflexivity.
Qed.

(** C1. For every pair of 16-bit words the six values the decoder hands to
    the calendar constructor are year = ((d >> 9) & 0x7F) + 1980,
    month = (d >> 5) & 0xF, day = d & 0x1F, hour = (t >> 11) & 0x1F,
    minute = (t >> 5) & 0x3F, second = (t & 0x1F) * 2, and the decoded
    [datetime] carries exactly these (the constructor refusing what is not a
    calendar date is C8); they are the slices of the words the format
    describes, and they determine the words.  A date word for 2020-03-15
    with a time word for 10:30:00 decodes to exactly these values. *)
Theorem C1_decode_date_time_layout (d t : Z) :
  0 <= d < 65536 -> 0 <= t < 65536 ->
  let y := Z.land (Z.shiftr d 9) 127 + 1980 in
  let mo := Z.land (Z.shiftr d 5) 15 in
  let dd := Z.land d 31 in
  let h := Z.land (Z.shiftr t 11) 31 in
  let mi := Z.land (Z.shiftr t 5) 63 in
  let s := Z.land t 31 * 2 in
  _DecodeDateAndTime d t =
    (if valid_fields y mo dd h mi s
     then Ok (mk_datetime y mo dd h mi s) else Raise ValueError) /\
  (forall dt, _DecodeDateAndTime d t = Ok dt ->
     year dt = y /\ month dt = mo /\ day dt = dd /\
     hour dt = h /\ minute dt = mi /\ second dt = s) /\
  (y = d / 512 + 1980 /\ mo = d / 32 mod 16 /\ dd = d mod 32 /\
   h = t / 2048 /\ mi = t / 32 mod 64 /\ s = 2 * (t mod 32)) /\
  (pack_date y mo dd = d /\ pack_time h mi s = t) /\
  _DecodeDateAndTime (pack_date 2020 3 15) (pack_time 10 30 0) =
    Ok (mk_datetime 2020 3 15 10 30 0).
Proof.
  intros Hd Ht y mo dd h mi s.
  destruct (date_word_layout d Hd) as (Ey & Em & Edd & Epd).
  destruct (time_word_layout t Ht) as (Eh & Emi & Es & Ept).
  split; [reflexivity|]. split; [|split; [|split]].
  - intros dt Hdt. unfold _DecodeDateAndTime, datetime_new in Hdt.
    fold y mo dd h mi s in Hdt.
    destruct (check_date_fields y mo dd && check_time_fields h mi s);
      [|discriminate].
    injection Hdt as <-. repeat split.
  - subst y mo dd h mi s. repeat split; assumption.
  - subst y mo dd h mi s. split; assumption.
  - rewrite decode_pack_roundtrip by (try lia; reflexivity). reflexivity.
Qed.

Lemma C1_witness :
  _DecodeDateAndTime 20591 21440 = Ok (mk_datetime 2020 3 15 10 30 0).
Proof.
  assert (Hd : 0 <= 20591 < 65536) by lia.
  assert (Ht : 0 <= 21440 < 65536) by lia.
  exact (proj1 (C1_decode_date_time_layout 20591 21440 Hd Ht)).
Defined.

(** C8. Whenever the decoded month is not in 1..12 or the decoded day is not
    a day of that month, the decode raises [ValueError] at the construction
    of the calendar value: no [datetime] is returned, clamped or otherwise. *)
Theorem C8_invalid_date_raises (d t : Z) :
  let y := Z.land (Z.shiftr d 9) 127 + 1980 in
  let mo := Z.land (Z.shiftr d 5) 15 in
  let dd := Z.land d 31 in
  mo < 1 \/ 12 < mo \/ dd < 1 \/ days_in_month y mo < dd ->
  _DecodeDateAndTime d t = Raise ValueError /\
  (forall dt, _DecodeDateAndTime d t <> Ok dt).
Proof.
  intros y mo dd H.
  assert (E : _DecodeDateAndTime d t = Raise ValueError).
  { unfold _DecodeDateAndTime, datetime_new. fold y mo dd.
    assert (Hc : check_date_fields y mo dd = false).
    { unfold check_date_fields. rewrite !andb_false_iff, !Z.leb_gt. lia. }
    rewrite Hc. reflexivity. }
  split; [exact E|]. intros dt. rewrite E. discriminate.
Qed.

Lemma C8_witness :
  _DecodeDateAndTime 0 0 = Raise ValueError /\
  _DecodeDateAndTime (pack_date 2021 2 30) 0 = Raise ValueError.
Proof.
  split.
  - apply (C8_invalid_date_raises 0 0). left. reflexivity.
  - apply (C8_invalid_date_raises (pack_date 2021 2 30) 0).
    right. right. right. reflexivity.
Defined.

Lemma break_at_none sep s : sep ∉ s -> break_at sep s = None.
Proof.
  induction s as [|c s IH]; intros H; [reflexivity|].
  simpl. apply not_elem_of_cons in H as [Hne Hs].
  destruct (Ascii.eqb_spec c sep) as [->|_]; [congruence|].
  rewrite (IH Hs). reflexivity.
Qed.

Lemma break_at_app sep a b :
  sep ∉ a -> break_at sep (a ++ sep :: b) = Some (a, b).
Proof.
  induction a as [|c a IH]; intros H; simpl.
  - rewrite Ascii.eqb_refl. reflexivity.
  - apply not_elem_of_cons in H as [Hne Ha].
    destruct (Ascii.eqb_spec c sep) as [->|_]; [congruence|].
    rewrite (IH Ha). reflexivity.
Qed.

Lemma break_at_some sep s a b :
  break_at sep s = Some (a, b) -> s = a ++ sep :: b /\ sep ∉ a.
Proof.
  revert a. induction s as [|c s IH]; intros a H; [discriminate|].
  simpl in H. destruct (Ascii.eqb_spec c sep) as [->|Hne].
  - injection H as <- <-. split; [reflexivity|]. apply not_elem_of_nil.
  - destruct (break_at sep s) as [[a' b']|] eqn:E; [|discriminate].
    injection H as <- <-. destruct (IH a' eq_refl) as [-> Ha].
    split; [reflexivity|]. apply not_elem_of_cons. split; [congruence | exact Ha].
Qed.

Lemma break_at_none_inv sep s : break_at sep s = None -> sep ∉ s.
Proof.
  induction s as [|c s IH]; intros H; [apply not_elem_of_nil|].
  simpl in H. destruct (Ascii.eqb_spec c sep) as [->|Hne]; [discriminate|].
  destruct (break_at sep s) as [[a b]|]; [discriminate|].
  apply not_elem_of_cons. split; [congruence | apply IH; reflexivity].
Qed.

Lemma join_cons2 sep f g rest :
  join sep (f :: g :: rest) = f ++ sep :: join sep (g :: rest).
Proof. reflexivity. Qed.

Lemma split_S sep n s :
  split sep (S n) s =
  match break_at sep s with
  | None => [s]
  | Some (a, b) => a :: split sep n b
  end.
Proof. reflexivity. Qed.

(** Splitting a joined line gives its fields back when no field holds the
    separator and the bound on the cuts is not reached. *)
Lemma split_join sep n : forall fields,
  fields <> [] -> Forall (fun f => sep ∉ f) fields ->
  (length fields <= S n)%nat ->
  split sep n (join sep fields) = fields.
Proof.
  induction n as [|n IH]; intros fields Hne Hall Hlen.
  - destruct fields as [|f [|g rest]]; simpl in *; [congruence | reflexivity | lia].
  - destruct fields as [|f [|g rest]]; [congruence| |].
    + simpl. inversion Hall; subst. rewrite break_at_none by assumption. reflexivity.
    + inversion Hall as [|? ? Hf Hrest]; subst.
      rewrite join_cons2, split_S, break_at_app by assumption.
      f_equal. apply IH; [discriminate | assumption | simpl in *; lia].
Qed.

Lemma join_snoc sep l x :
  l <> [] -> join sep (l ++ [x]) = join sep l ++ sep :: x.
Proof.
  induction l as [|f [|g rest] IH]; intros Hne; [congruence | reflexivity |].
  change ((f :: g :: rest) ++ [x]) with (f :: g :: (rest ++ [x])).
  rewrite !join_cons2. rewrite <- app_assoc. simpl. f_equal. f_equal.
  apply (IH ltac:(discriminate)).
Qed.

Lemma rev_join sep fields :
  rev (join sep fields) = join sep (rev (map (@rev ascii) fields)).
Proof.
  induction fields as [|f [|g rest] IH]; [reflexivity | reflexivity |].
  rewrite join_cons2, rev_app_distr.
  change (rev (sep :: join sep (g :: rest)))
    with (rev (join sep (g :: rest)) ++ [sep]).
  rewrite IH.
  change (map (@rev ascii) (f :: g :: rest))
    with (rev f :: map (@rev ascii) (g :: rest)).
  change (rev (rev f :: map (@rev ascii) (g :: rest)))
    with (rev (map (@rev ascii) (g :: rest)) ++ [rev f]).
  rewrite join_snoc.
  - rewrite <- app_assoc. reflexivity.
  - simpl. intros H. apply app_eq_nil in H as [_ H]. discriminate.
Qed.

(** The same for the split from the right. *)
Lemma rsplit_join sep n fields :
  fields <> [] -> Forall (fun f => sep ∉ f) fields ->
  (length fields <= S n)%nat ->
  rsplit sep n (join sep fields) = fields.
Proof.
  intros Hne Hall Hlen. unfold rsplit. rewrite rev_join, split_join.
  - rewrite map_rev, rev_involutive, map_map.
    rewrite <- (map_id fields) at 2. apply map_ext. intros f. apply rev_involutive.
  - intros H. apply (f_equal (@rev str)) in H. rewrite rev_involutive in H.
    simpl in H. destruct fields; [congruence | discriminate].
  - apply Forall_rev, Forall_map. eapply Forall_impl; [exact Hall|].
    intros f Hf. simpl. rewrite list_elem_of_In, <- in_rev, <- list_elem_of_In. exact Hf.
  - rewrite length_rev, length_map. exact Hlen.
Qed.

Lemma count_char_none sep s : sep ∉ s -> count_char sep s = 0%nat.
Proof.
  unfold count_char. induction s as [|c s IH]; intros H; [reflexivity|].
  apply not_elem_of_cons in H as [Hne Hs].
  rewrite filter_cons_False by congruence. apply IH, Hs.
Qed.

Lemma count_char_app sep a b :
  count_char sep (a ++ b) = (count_char sep a + count_char sep b)%nat.
Proof. unfold count_char. rewrite filter_app, length_app. reflexivity. Qed.

Lemma count_char_rev sep s : count_char sep (rev s) = count_char sep s.
Proof.
  induction s as [|c s IH]; [reflexivity|].
  simpl rev. rewrite count_char_app, IH.
  change (c :: s) with ([c] ++ s). rewrite count_char_app. lia.
Qed.

Lemma length_split sep n : forall s,
  length (split sep n s) = S (Nat.min n (count_char sep s)).
Proof.
  induction n as [|n IH]; intros s; [reflexivity|].
  rewrite split_S. destruct (break_at sep s) as [[a b]|] eqn:E.
  - apply break_at_some in E as [-> Ha].
    simpl length. rewrite IH. change (sep :: b) with ([sep] ++ b).
    rewrite !count_char_app, (count_char_none _ _ Ha).
    unfold count_char at 2. rewrite filter_cons_True by reflexivity. simpl. lia.
  - apply break_at_none_inv in E. rewrite (count_char_none _ _ E). simpl. lia.
Qed.

(** The number of items of the split: one more than the separators, up to
    the bound. *)
Lemma length_rsplit sep n s :
  length (rsplit sep n s) = S (Nat.min n (count_char sep s)).
Proof.
  unfold rsplit. rewrite length_rev, length_map, length_split, count_char_rev.
  reflexivity.
Qed.

(** ** Listing decoder *)

Lemma getitem_error {A} (l : list A) k e : getitem l k = Raise e -> e = IndexError.
Proof. unfold getitem. destruct (l !! k); intros H; congruence. Qed.

Lemma unsigned_val_error s e : unsigned_val s = Raise e -> e = ValueError.
Proof.
  unfold unsigned_val. destruct s; [congruence|].
  destruct (digits_val 0 _); congruence.
Qed.

Lemma py_int_error s e : py_int s = Raise e -> e = ValueError.
Proof.
  unfold py_int. destruct (strip s) as [|c ds] eqn:E.
  - apply unsigned_val_error.
  - destruct (ascii_dec c "+") as [->|H1]; [apply unsigned_val_error|].
    destruct (ascii_dec c "-") as [->|H2].
    + destruct (unsigned_val ds) eqn:Eu; simpl; [discriminate|].
      intros H. injection H as <-. eapply unsigned_val_error, Eu.
    + assert (Hgen : unsigned_val (c :: ds) = Raise e -> e = ValueError)
        by apply unsigned_val_error.
      destruct c as [[] [] [] [] [] [] [] []]; try exact Hgen; congruence.
  Qed.

Lemma DecodeDateAndTime_error d t e :
  _DecodeDateAndTime d t = Raise e -> e = ValueError.
Proof.
  unfold _DecodeDateAndTime, datetime_new.
  destruct (_ && _); congruence.
Qed.

(** What a decoded line was made of. *)
Lemma GetFileList_line_ok line f :
  GetFileList_line line = Ok f ->
  exists s2 s3 s4 s5 size attr d t dt,
    rsplit ","%char 6 line !! 0%nat = Some (f_dir f) /\
    rsplit ","%char 6 line !! 1%nat = Some (f_name f) /\
    rsplit ","%char 6 line !! 2%nat = Some s2 /\ py_int s2 = Ok size /\
    rsplit ","%char 6 line !! 3%nat = Some s3 /\ py_int s3 = Ok attr /\
    rsplit ","%char 6 line !! 4%nat = Some s4 /\ py_int s4 = Ok d /\
    rsplit ","%char 6 line !! 5%nat = Some s5 /\ py_int s5 = Ok t /\
    _DecodeDateAndTime d t = Ok dt /\
    f = mk_File (f_dir f) (f_name f) size (_DecodeAttributes attr) dt.
Proof.
  unfold GetFileList_line, getitem, ascii_decode.
  destruct (is_ascii line); [|discriminate]. cbn [res_bind]. cbv zeta.
  generalize (rsplit ","%char 6 line) as items. intros items H.
  destruct (items !! 0%nat) as [i0|]; [|discriminate].
  destruct (items !! 1%nat) as [i1|]; [|discriminate].
  destruct (items !! 2%nat) as [i2|]; [|discriminate].
  cbn [res_bind] in H. destruct (py_int i2) as [size|] eqn:E2; [|discriminate].
  destruct (items !! 3%nat) as [i3|]; [|discriminate].
  cbn [res_bind] in H. destruct (py_int i3) as [attr|] eqn:E3; [|discriminate].
  destruct (items !! 4%nat) as [i4|]; [|discriminate].
  cbn [res_bind] in H. destruct (py_int i4) as [d|] eqn:E4; [|discriminate].
  destruct (items !! 5%nat) as [i5|]; [|discriminate].
  cbn [res_bind] in H. destruct (py_int i5) as [t|] eqn:E5; [|discriminate].
  cbn [res_bind] in H. destruct (_DecodeDateAndTime d t) as [dt|] eqn:E6; [|discriminate].
  cbn [res_bind] in H. injection H as <-.
  exists i2, i3, i4, i5, size, attr, d, t, dt. simpl. repeat split; assumption.
Qed.

Lemma GetFileList_line_error line e :
  GetFileList_line line = Raise e -> is_parse_error e.
Proof.
  unfold GetFileList_line, is_parse_error, ascii_decode.
  destruct (is_ascii line); cbn [res_bind]; cbv zeta;
    [|intros H; injection H as <-; auto].
  generalize (rsplit ","%char 6 line) as items. intros items H.
  repeat match type of H with
  | res_bind ?r _ = Raise _ =>
      let E := fresh "E" in
      destruct r eqn:E; cbn [res_bind] in H;
      [| injection H as <-;
         first [ apply getitem_error in E | apply py_int_error in E
               | apply DecodeDateAndTime_error in E | idtac ] ]
  end; try discriminate; auto.
  all: repeat match goal with
  | E : res_bind ?r _ = Raise _ |- _ =>
      let E' := fresh "E" in
      destruct r eqn:E'; cbn [res_bind] in E;
      [ apply py_int_error in E | injection E as <-; apply getitem_error in E' ]
  end; auto.
Qed.

Lemma malformed_line_raises line :
  malformed line -> exists e, GetFileList_line line = Raise e /\ is_parse_error e.
Proof.
  intros Hm. destruct (GetFileList_line line) as [f|e] eqn:E.
  - exfalso. apply GetFileList_line_ok in E
      as (s2 & s3 & s4 & s5 & size & attr & d & t & dt &
          _ & _ & H2 & P2 & H3 & P3 & H4 & P4 & H5 & P5 & _).
    destruct Hm as [Hfew | (k & s & Hk & Hs & Hp)].
    + apply lookup_lt_Some in H5. rewrite length_rsplit in H5. lia.
    + assert (k = 2 \/ k = 3 \/ k = 4 \/ k = 5)%nat as [-> | [-> | [-> | ->]]] by lia;
        congruence.
  - exists e. split; [reflexivity|]. eapply GetFileList_line_error, E.
Qed.

Lemma GetFileList_loop_error lines : forall results e,
  GetFileList_loop lines results = Raise e -> is_parse_error e.
Proof.
  induction lines as [|l rest IH]; intros results e H; [discriminate|].
  simpl in H. destruct (GetFileList_line l) as [f|e'] eqn:E; simpl in H.
  - eapply IH, H.
  - injection H as <-. eapply GetFileList_line_error, E.
Qed.

(** One bad line fails the whole loop, whatever was decoded before it and
    whatever follows it. *)
Lemma GetFileList_loop_malformed lines line : forall results,
  line ∈ lines -> malformed line ->
  exists e, GetFileList_loop lines results = Raise e /\ is_parse_error e.
Proof.
  induction lines as [|l rest IH]; intros results Hin Hm.
  - apply elem_of_nil in Hin. contradiction.
  - simpl. destruct (GetFileList_line l) as [f|e] eqn:E; simpl.
    + apply elem_of_cons in Hin as [->|Hin].
      * destruct (malformed_line_raises _ Hm) as (e & He & _). congruence.
      * apply IH; assumption.
    + exists e. split; [reflexivity|]. eapply GetFileList_line_error, E.
Qed.

Lemma GetFileList_decode_cons l0 rest :
  GetFileList_decode (l0 :: rest) =
  if bool_decide (l0 = HEADER) then GetFileList_loop rest []
  else Raise AssertionError.
Proof. reflexivity. Qed.

(** [GetFileList] asks for one URL and returns what the lines decode to. *)
Lemma GetFileList_listing self net directory w :
  GetFileList self net directory w =
  (to_outcome (listing self net directory),
   logged w [EvUrlopen (list_url self directory)]).
Proof.
  unfold GetFileList, _GetOp, urlopen, listing, bind, emit, lift, logged.
  fold (list_url self directory). simpl.
  destruct (net (list_url self directory)) as [body|e]; simpl; [|reflexivity].
  destruct (GetFileList_decode _); reflexivity.
Qed.

Lemma digits_val_non_digit c s : forall acc,
  c ∈ s -> digit_val c = None -> digits_val acc s = None.
Proof.
  induction s as [|x s IH]; intros acc Hin Hc.
  - apply elem_of_nil in Hin. contradiction.
  - simpl. apply elem_of_cons in Hin as [<-|Hin].
    + rewrite Hc. reflexivity.
    + destruct (digit_val x); [apply IH; assumption | reflexivity].
Qed.

Lemma lstrip_keeps c s : c ∈ s -> is_space c = false -> c ∈ lstrip s.
Proof.
  induction s as [|x s IH]; intros Hin Hc; [exact Hin|].
  simpl. destruct (is_space x) eqn:Ex; [|exact Hin].
  apply elem_of_cons in Hin as [->|Hin]; [congruence | apply IH; assumption].
Qed.

Lemma elem_of_rev_iff (c : ascii) (s : str) : c ∈ rev s <-> c ∈ s.
Proof. rewrite !list_elem_of_In. symmetry. apply in_rev. Qed.

Lemma strip_keeps c s : c ∈ s -> is_space c = false -> c ∈ strip s.
Proof.
  intros Hin Hc. unfold strip, rstrip.
  apply elem_of_rev_iff, lstrip_keeps; [|exact Hc].
  apply elem_of_rev_iff, lstrip_keeps; assumption.
Qed.

(** A field holding any character that is not a digit, a sign or whitespace
    is refused by [int]. *)
Lemma py_int_non_numeric c s :
  c ∈ s -> numeric_char c = false -> py_int s = Raise ValueError.
Proof.
  unfold numeric_char. intros Hin Hc.
  destruct (digit_val c) eqn:Ed; [discriminate|].
  apply orb_false_iff in Hc as [Hc Hminus]. apply orb_false_iff in Hc as [Hsp Hplus].
  pose proof (strip_keeps _ _ Hin Hsp) as Hs.
  assert (Hu : forall ds, c ∈ ds -> unsigned_val ds = Raise ValueError).
  { intros ds Hds. unfold unsigned_val. destruct ds; [reflexivity|].
    rewrite (digits_val_non_digit c) by assumption. reflexivity. }
  unfold py_int. destruct (strip s) as [|x ds] eqn:E.
  - reflexivity.
  - destruct (ascii_dec x "+") as [->|H1].
    { apply Hu. apply elem_of_cons in Hs as [->|Hs]; [|exact Hs].
      rewrite Ascii.eqb_refl in Hplus. discriminate. }
    destruct (ascii_dec x "-") as [->|H2].
    { rewrite Hu; [reflexivity|].
      apply elem_of_cons in Hs as [->|Hs]; [|exact Hs].
      rewrite Ascii.eqb_refl in Hminus. discriminate. }
    specialize (Hu (x :: ds) Hs).
    destruct x as [[] [] [] [] [] [] [] []]; try exact Hu; congruence.
Qed.

(** C3 (as amended). A listing response with the header and a data line that
    has fewer than six comma-separated fields, or whose item read as size,
    attribute, date or time is refused by [int], makes [GetFileList] raise
    [IndexError] or [ValueError] and return no list at all, whatever the
    lines before and after it; with any first line the call raises. *)
Theorem C3_malformed_line_fails_listing
    (self : FlashAir) (net : network) (directory : str) (w : world)
    (body l0 : str) (data : list str) (line : str) :
  net (list_url self directory) = Ok body ->
  map strip (readlines body) = l0 :: data ->
  line ∈ data -> malformed line ->
  exists e,
    GetFileList self net directory w =
      (Raised e, logged w [EvUrlopen (list_url self directory)]) /\
    (l0 = HEADER -> is_parse_error e).
Proof.
  intros Hnet Hlines Hin Hm. rewrite GetFileList_listing.
  unfold listing. rewrite Hnet. simpl. rewrite Hlines, GetFileList_decode_cons.
  destruct (bool_decide_reflect (l0 = HEADER)) as [->|Hne].
  - destruct (GetFileList_loop_malformed data line [] Hin Hm) as (e & -> & He).
    exists e. split; [reflexivity | intros _; exact He].
  - exists AssertionError. split; [reflexivity | congruence].
Qed.

Lemma C3_witness :
  exists e,
    GetFileList card
      (serve (list_url card (lit "/DCIM")) (response [good_line; short_line; good_line])
         no_network)
      (lit "/DCIM") empty_world =
      (Raised e, logged empty_world [EvUrlopen (list_url card (lit "/DCIM"))]) /\
    (HEADER = HEADER -> is_parse_error e).
Proof.
  apply (C3_malformed_line_fails_listing card _ (lit "/DCIM") empty_world
           (response [good_line; short_line; good_line]) HEADER
           [good_line; short_line; good_line] short_line).
  - vm_compute. reflexivity.
  - vm_compute. reflexivity.
  - apply (bool_decide_unpack _). vm_compute. exact I.
  - left. vm_compute. lia.
Defined.

(** A line with seven fields is taken as a line with six is: the decoder
    reads the first six items of the split and returns a record, so a wrong
    field count alone does not fail the listing. *)
Lemma C3_counterexample :
  (S (count_char ","%char good_line) = 6%nat /\
   GetFileList_decode [HEADER; good_line] = Ok [good_file]) /\
  (S (count_char ","%char seven_field_line) = 7%nat /\
   GetFileList_decode [HEADER; seven_field_line] =
     Ok [mk_File (lit "/DCIM") (lit "IMG.JPG") 10 (_DecodeAttributes 32)
           (mk_datetime 1980 1 1 0 0 0)] /\
   fst (GetFileList card
          (serve (list_url card (lit "/DCIM")) (response [seven_field_line])
             no_network)
          (lit "/DCIM") empty_world) =
     Done [mk_File (lit "/DCIM") (lit "IMG.JPG") 10 (_DecodeAttributes 32)
             (mk_datetime 1980 1 1 0 0 0)]).
Proof. vm_compute. repeat split. Qed.

(** C4. When the first line of the response is not [WLANSD_FILELIST],
    [GetFileList] raises the [AssertionError] of its [assert] and returns no
    list; when it is, the call never ends in that error. *)
Theorem C4_header_check
    (self : FlashAir) (net : network) (directory : str) (w : world)
    (body l0 : str) (rest : list str) :
  net (list_url self directory) = Ok body ->
  map strip (readlines body) = l0 :: rest ->
  (l0 <> HEADER ->
   GetFileList self net directory w =
     (Raised AssertionError, logged w [EvUrlopen (list_url self directory)])) /\
  (l0 = HEADER ->
   fst (GetFileList self net directory w) <> Raised AssertionError).
Proof.
  intros Hnet Hlines. rewrite GetFileList_listing.
  unfold listing. rewrite Hnet. simpl. rewrite Hlines, GetFileList_decode_cons.
  split; intros H.
  - rewrite bool_decide_eq_false_2 by exact H. reflexivity.
  - rewrite bool_decide_eq_true_2 by exact H. simpl.
    destruct (GetFileList_loop rest []) as [files|e] eqn:E; simpl; [discriminate|].
    apply GetFileList_loop_error in E as [->| ->]; discriminate.
Qed.

Lemma C4_witness :
  GetFileList card
    (serve (list_url card (lit "/")) (lit "<html>404</html>") no_network)
    (lit "/") empty_world =
    (Raised AssertionError, logged empty_world [EvUrlopen (list_url card (lit "/"))]) /\
  fst (GetFileList card
         (serve (list_url card (lit "/")) (response [good_line]) no_network)
         (lit "/") empty_world) <> Raised AssertionError.
Proof.
  split.
  - apply (C4_header_check card _ (lit "/") empty_world (lit "<html>404</html>")
             (lit "<html>404</html>") []).
    + vm_compute. reflexivity.
    + vm_compute. reflexivity.
    + vm_compute. discriminate.
  - apply (C4_header_check card _ (lit "/") empty_world (response [good_line])
             HEADER [good_line]).
    + vm_compute. reflexivity.
    + vm_compute. reflexivity.
    + reflexivity.
Defined.

(** C5 (as amended). A data line of ASCII bytes whose six fields hold no
    comma, whose four last fields are read by [int] and whose date and time
    words are a calendar date decodes to the record of its fields: the
    directory and name as written, the size, and the decoded attributes and
    date. *)
Theorem C5_comma_free_line_decodes
    (dir_ name s a d t : str) (size attr dw tw : Z) (dt : datetime) :
  is_ascii (data_line dir_ name s a d t) = true ->
  Forall (fun f => ","%char ∉ f) [dir_; name; s; a; d; t] ->
  py_int s = Ok size -> py_int a = Ok attr ->
  py_int d = Ok dw -> py_int t = Ok tw ->
  _DecodeDateAndTime dw tw = Ok dt ->
  GetFileList_line (data_line dir_ name s a d t) =
    Ok (mk_File dir_ name size (_DecodeAttributes attr) dt).
Proof.
  intros Hascii Hfree Hs Ha Hd Ht Hdt. unfold GetFileList_line, ascii_decode.
  rewrite Hascii. cbn [res_bind]. cbv zeta. unfold data_line.
  rewrite rsplit_join; [|discriminate|exact Hfree|simpl; lia].
  unfold getitem. cbn [lookup list_lookup res_bind].
  rewrite Hs. cbn [res_bind]. rewrite Ha. cbn [res_bind].
  rewrite Hd. cbn [res_bind]. rewrite Ht. cbn [res_bind]. rewrite Hdt. reflexivity.
Qed.

Lemma C5_witness : GetFileList_line good_line = Ok good_file.
Proof.
  apply (C5_comma_free_line_decodes (lit "/DCIM") (lit "IMG.JPG") (lit "10")
           (lit "32") (lit "20591") (lit "21440") 10 32 20591 21440).
  - reflexivity.
  - apply (bool_decide_unpack _). vm_compute. exact I.
  - reflexivity.
  - reflexivity.
  - reflexivity.
  - reflexivity.
  - reflexivity.
Defined.

(** A name with a comma in it, [a,b.jpg] in [/DCIM]: the four numeric fields
    hold no comma and are well formed, and the line is not decoded to its
    fields; the decoder reads [b.jpg] as the size and raises.  A name with a
    byte above 127 in it is not decoded either, commas or not: the split of
    the line raises. *)
Lemma C5_counterexample :
  (count_char ","%char (lit "a,b.jpg") = 1%nat /\
   Forall (fun f => ","%char ∉ f) [lit "10"; lit "32"; lit "20591"; lit "21440"] /\
   py_int (lit "10") = Ok 10 /\ py_int (lit "32") = Ok 32 /\
   py_int (lit "20591") = Ok 20591 /\ py_int (lit "21440") = Ok 21440 /\
   _DecodeDateAndTime 20591 21440 = Ok (mk_datetime 2020 3 15 10 30 0) /\
   GetFileList_line
     (data_line (lit "/DCIM") (lit "a,b.jpg") (lit "10") (lit "32")
        (lit "20591") (lit "21440")) = Raise ValueError /\
   GetFileList_line
     (data_line (lit "/DCIM") (lit "a,b.jpg") (lit "10") (lit "32")
        (lit "20591") (lit "21440")) <>
     Ok (mk_File (lit "/DCIM") (lit "a,b.jpg") 10 (_DecodeAttributes 32)
           (mk_datetime 2020 3 15 10 30 0))) /\
  (count_char ","%char latin1_name = 0%nat /\
   GetFileList_line
     (data_line (lit "/DCIM") latin1_name (lit "10") (lit "32")
        (lit "20591") (lit "21440")) = Raise ValueError).
Proof.
  split.
  - split; [reflexivity|].
    split; [apply (bool_decide_unpack _); vm_compute; exact I|].
    repeat (split; [reflexivity|]).
    vm_compute. discriminate.
  - split; reflexivity.
Qed.

(** Two different directory and name pairs with commas make one and the same
    line, so no decoder of the line alone gives both back. *)
Lemma comma_fields_ambiguous s a d t :
  data_line (lit "/A,B") (lit "C") s a d t = data_line (lit "/A") (lit "B,C") s a d t.
Proof. reflexivity. Qed.

(** ** Sync engine *)

Lemma Sync_entry_file self net recurse remote_dir local_dir force f w :
  dir (f_attr f) = false ->
  Sync_entry self net recurse remote_dir local_dir force f w =
  Sync_file self net (os_path_join remote_dir (f_name f))
    (local_file_of local_dir (f_name f) force) f (logged w [EvPrint (f_name f)]).
Proof.
  intros Hd. unfold Sync_entry, bind, print, emit, logged. simpl. rewrite Hd.
  reflexivity.
Qed.



Lemma os_path_exists_eq p w :
  os_path_exists p w =
  (Done (match fs w !! p with Some _ => true | None => false end), w).
Proof.
  unfold os_path_exists. destruct (fs w !! p) as [n|] eqn:E.
  - rewrite bool_decide_eq_true_2 by eauto. reflexivity.
  - rewrite bool_decide_eq_false_2 by (intros [? ?]; congruence). reflexivity.
Qed.

Lemma Sync_file_cases self net remote_file local_file f w :
  Sync_file self net remote_file local_file f w =
  match fs w !! local_file with
  | None =>
      fetch_and_write self net remote_file local_file
        (lit "  does not exist locally, fetching...") w
  | Some n =>
      if node_size n =? f_size f then (Done tt, w)
      else fetch_and_write self net remote_file local_file
             (lit "  size differs, fetching...") w
  end.
Proof.
  unfold Sync_file, fetch_and_write. unfold bind at 1.
  rewrite os_path_exists_eq.
  destruct (fs w !! local_file) as [n|] eqn:E; cbn [negb].
  - unfold bind at 1. unfold bind at 1. unfold os_stat_st_size. rewrite E.
    destruct (node_size n =? f_size f); cbn [negb]; [reflexivity|].
    destruct (net (_BuildFileUrl self remote_file)) eqn:En;
      cbv [bind _GetFile urlopen print emit lift ret raise logged fs trace];
      rewrite En, <- app_assoc; reflexivity.
  - destruct (net (_BuildFileUrl self remote_file)) eqn:En;
      cbv [bind _GetFile urlopen print emit lift ret raise logged fs trace];
      rewrite En, <- app_assoc; reflexivity.
Qed.

Lemma write_file_trace p c w o w' :
  write_file p c w = (o, w') -> trace w' = trace w.
Proof.
  unfold write_file. intros H.
  destruct (fs w !! p) as [[|old]|]; [| |destruct (parent_is_dir (fs w) p)];
    injection H as <- <-; reflexivity.
Qed.

Lemma needs_fetch_dec m local_file f :
  needs_fetch m local_file f <->
  match m !! local_file with
  | None => True
  | Some n => (node_size n =? f_size f) = false
  end.
Proof.
  unfold needs_fetch. destruct (m !! local_file) as [n|].
  - rewrite Z.eqb_neq. split.
    + intros [H|(n' & H & Hn)]; congruence.
    + intros H. right. eauto.
  - tauto.
Qed.

Lemma fetch_and_write_spec self net remote_file local_file msg w o w' :
  fetch_and_write self net remote_file local_file msg w = (o, w') ->
  trace w' = trace w ++ [EvPrint msg; EvUrlopen (_BuildFileUrl self remote_file)] /\
  (forall contents,
     net (_BuildFileUrl self remote_file) = Ok contents ->
     (exists old, fs w !! local_file = Some (NFile old)) \/
     (fs w !! local_file = None /\ parent_is_dir (fs w) local_file = true) ->
     o = Done tt /\ fs w' = <[local_file := NFile contents]> (fs w)).
Proof.
  unfold fetch_and_write. intros H.
  destruct (net (_BuildFileUrl self remote_file)) as [contents|e] eqn:En.
  - split.
    + apply write_file_trace in H. exact H.
    + intros c Hc Hok. injection Hc as <-. unfold write_file in H.
      cbn [logged fs] in H.
      destruct Hok as [[old Hold]|[Hnone Hpar]].
      * rewrite Hold in H. injection H as <- <-. split; reflexivity.
      * rewrite Hnone, Hpar in H. injection H as <- <-. split; reflexivity.
  - injection H as <- <-. split; [reflexivity | discriminate].
Qed.

(** C6. For an entry that is not a directory, the file is requested from the
    card if and only if the local path is absent or its size is not the size
    of the record, and nothing else is requested; without a fetch the local
    tree is left as it is, and a fetch that succeeds writes the whole content
    over the local path.  With a remote file of 10 bytes, a local copy of 10
    bytes gives no fetch, and a local copy of 8 bytes is fetched and
    replaced by the 10 bytes of the card. *)
Theorem C6_fetch_iff_absent_or_size_differs
    (self : FlashAir) (net : network) (recurse : str -> str -> bool -> M unit)
    (remote_dir local_dir : str) (force_lowercase : bool) (f : File)
    (w : world) (o : outcome unit) (w' : world) :
  dir (f_attr f) = false ->
  Sync_entry self net recurse remote_dir local_dir force_lowercase f w = (o, w') ->
  let remote_file := os_path_join remote_dir (f_name f) in
  let local_file := local_file_of local_dir (f_name f) force_lowercase in
  let url := _BuildFileUrl self remote_file in
  (exists evs,
     trace w' = trace w ++ evs /\
     (requested evs = [url] <-> needs_fetch (fs w) local_file f) /\
     (requested evs = [] <-> ~ needs_fetch (fs w) local_file f)) /\
  (~ needs_fetch (fs w) local_file f -> o = Done tt /\ fs w' = fs w) /\
  (forall contents,
     needs_fetch (fs w) local_file f -> net url = Ok contents ->
     (exists old, fs w !! local_file = Some (NFile old)) \/
     (fs w !! local_file = None /\ parent_is_dir (fs w) local_file = true) ->
     o = Done tt /\ fs w' = <[local_file := NFile contents]> (fs w)) /\
  (let run := Sync 1 card one_file_net (lit "/DCIM") (lit "/mnt") true
                (local_copy (lit "abcdefghij")) in
   fst run = Done tt /\
   requested (trace (snd run)) = [list_url card (lit "/DCIM")] /\
   fs (snd run) !! lit "/mnt/img.jpg" = Some (NFile (lit "abcdefghij"))) /\
  (let run := Sync 1 card one_file_net (lit "/DCIM") (lit "/mnt") true
                (local_copy (lit "abcdefgh")) in
   fst run = Done tt /\
   requested (trace (snd run)) =
     [list_url card (lit "/DCIM"); _BuildFileUrl card (lit "/DCIM/IMG.JPG")] /\
   fs (snd run) !! lit "/mnt/img.jpg" = Some (NFile (lit "0123456789"))).
Proof.
  intros Hd Hrun remote_file local_file url.
  rewrite Sync_entry_file in Hrun by exact Hd.
  rewrite Sync_file_cases in Hrun. fold remote_file local_file in Hrun.
  cbn [logged fs] in Hrun.
  pose proof (needs_fetch_dec (fs w) local_file f) as Hn.
  split; [|split; [|split; [|split]]].
  - destruct (fs w !! local_file) as [n|] eqn:E.
    + destruct (node_size n =? f_size f) eqn:Es.
      * injection Hrun as <- <-. exists [EvPrint (f_name f)].
        split; [reflexivity|]. split; [split; [discriminate|] | split; [|reflexivity]].
        -- intros H. apply Hn in H. discriminate.
        -- intros _ H. apply Hn in H. discriminate.
      * apply fetch_and_write_spec in Hrun as [Htr _].
        exists [EvPrint (f_name f); EvPrint (lit "  size differs, fetching...");
                EvUrlopen url].
        split; [rewrite Htr; cbn [logged trace]; rewrite <- app_assoc; reflexivity|].
        split; [split; [intros _; apply Hn; reflexivity | reflexivity]|].
        split; [discriminate|]. intros H. exfalso. apply H, Hn. reflexivity.
    + apply fetch_and_write_spec in Hrun as [Htr _].
      exists [EvPrint (f_name f);
              EvPrint (lit "  does not exist locally, fetching..."); EvUrlopen url].
      split; [rewrite Htr; cbn [logged trace]; rewrite <- app_assoc; reflexivity|].
      split; [split; [intros _; apply Hn; exact I | reflexivity]|].
      split; [discriminate|]. intros H. exfalso. apply H, Hn. exact I.
  - intros Hno. destruct (fs w !! local_file) as [n|] eqn:E.
    + destruct (node_size n =? f_size f) eqn:Es.
      * injection Hrun as <- <-. split; reflexivity.
      * exfalso. apply Hno, Hn. reflexivity.
    + exfalso. apply Hno, Hn. exact I.
  - intros contents Hneed Hnet Hok. apply Hn in Hneed.
    destruct (fs w !! local_file) as [n|] eqn:E.
    + rewrite Hneed in Hrun.
      apply fetch_and_write_spec in Hrun as [_ Hw].
      apply (Hw contents Hnet). cbn [logged fs]. rewrite E. exact Hok.
    + apply fetch_and_write_spec in Hrun as [_ Hw].
      apply (Hw contents Hnet). cbn [logged fs]. rewrite E. exact Hok.
  - vm_compute. repeat split.
  - vm_compute. repeat split.
Qed.

Lemma C6_witness :
  exists evs, requested evs = [_BuildFileUrl card (lit "/DCIM/IMG.JPG")].
Proof.
  pose (run := Sync_entry card one_file_net (Sync 0 card one_file_net)
                 (lit "/DCIM") (lit "/mnt") true good_file
                 (local_copy (lit "abcdefgh"))).
  assert (Hd : dir (f_attr good_file) = false) by reflexivity.
  assert (Hrun : run = (fst run, snd run)) by apply surjective_pairing.
  destruct (C6_fetch_iff_absent_or_size_differs card one_file_net
              (Sync 0 card one_file_net) (lit "/DCIM") (lit "/mnt") true good_file
              (local_copy (lit "abcdefgh")) (fst run) (snd run) Hd Hrun)
    as ((evs & _ & Hiff & _) & _).
  exists evs. apply Hiff. right. exists (NFile (lit "abcdefgh")).
  split; [reflexivity | vm_compute; discriminate].
Defined.

Lemma Sync_dir_prepare_cases local_file w :
  Sync_dir_prepare local_file w =
  match fs w !! local_file with
  | None =>
      if parent_is_dir (fs w) local_file
      then (Done tt, mk_world (<[local_file := NDir]> (fs w)) (trace w))
      else (Raised OSError, w)
  | Some NDir => (Done tt, w)
  | Some (NFile _) => (Raised AssertionError, w)
  end.
Proof.
  unfold Sync_dir_prepare. unfold bind at 1. rewrite os_path_exists_eq.
  destruct (fs w !! local_file) as [[|c]|] eqn:E; cbn [negb].
  - unfold bind, os_path_isdir. rewrite E. reflexivity.
  - unfold bind, os_path_isdir. rewrite E. reflexivity.
  - unfold os_mkdir. rewrite E. reflexivity.
Qed.




Lemma Sync_unfold fuel self net remote_dir local_dir force_lowercase w :
  Sync (S fuel) self net remote_dir local_dir force_lowercase w =
  let w1 := logged w [EvPrint (lit "Syncing " ++ remote_dir ++ lit " -> " ++ local_dir)] in
  match fs w !! local_dir with
  | None => (Raised ValueError, w1)
  | Some _ =>
      match listing self net remote_dir with
      | Raise e => (Raised e, logged w1 [EvUrlopen (list_url self remote_dir)])
      | Ok files =>
          for_each files
            (Sync_entry self net (Sync fuel self net)
               remote_dir local_dir force_lowercase)
            (logged w1 [EvUrlopen (list_url self remote_dir)])
      end
  end.
Proof.
  cbn [Sync]. unfold bind at 1. unfold print, emit.
  unfold bind at 1. rewrite os_path_exists_eq. cbn [fs].
  destruct (fs w !! local_dir) as [n|]; cbn [negb]; [|reflexivity].
  unfold bind at 1. rewrite GetFileList_listing.
  destruct (listing self net remote_dir); reflexivity.
Qed.

(** *** The frame of a sync *)



Section TouchesOnly.

Context (P : str -> Prop).




End TouchesOnly.



Section SyncFrame.

Context (self : FlashAir) (net : network) (force_lowercase : bool).




End SyncFrame.





(** ** Tree walker *)

Lemma printed_app a b : printed (a ++ b) = printed a ++ printed b.
Proof. unfold printed. apply flat_map_app. Qed.

Lemma logged_logged w a b : logged (logged w a) b = logged w (a ++ b).
Proof. unfold logged. cbn [fs trace]. rewrite app_assoc. reflexivity. Qed.

Lemma RecursiveFileList_unfold fuel self net directory levels w :
  RecursiveFileList (S fuel) self net directory levels w =
  match listing self net directory with
  | Raise e => (Raised e, logged w [EvUrlopen (list_url self directory)])
  | Ok files =>
      for_each files (fun f =>
        print (entry_line levels f) ;;
        if dir (f_attr f)
        then RecursiveFileList fuel self net
               (directory ++ lit "/" ++ f_name f) (levels + 1)
        else ret tt)
        (logged w [EvUrlopen (list_url self directory)])
  end.
Proof.
  cbn [RecursiveFileList]. unfold bind at 1. rewrite GetFileList_listing.
  destruct (listing self net directory); reflexivity.
Qed.

Lemma print_bind {A} s (k : M A) w : (print s ;; k) w = k (logged w [EvPrint s]).
Proof. reflexivity. Qed.

Lemma for_each_cons {A} (x : A) l body w :
  for_each (x :: l) body w =
  match body x w with
  | (Done _, w') => for_each l body w'
  | (Raised e, w') => (Raised e, w')
  | (OutOfFuel, w') => (OutOfFuel, w')
  end.
Proof. reflexivity. Qed.

Lemma entry_lines_app a b : entry_lines (a ++ b) = entry_lines a ++ entry_lines b.
Proof. unfold entry_lines. apply map_app. Qed.

(** With fuel above the height of the forest the walk returns, and it prints
    the forest in pre-order. *)
Lemma RecursiveFileList_preorder self net : forall fuel directory ts levels w,
  (forest_height ts < fuel)%nat ->
  reports_forest self net directory ts ->
  exists evs,
    RecursiveFileList fuel self net directory levels w = (Done tt, logged w evs) /\
    printed evs = entry_lines (flat_map (preorder levels) ts).
Proof.
  induction fuel as [|fuel IH]; intros directory ts levels w Hh [Hl Hrep]; [lia|].
  rewrite RecursiveFileList_unfold, Hl.
  assert (Hloop : forall ts' w0,
            (forest_height ts' < S fuel)%nat ->
            fold_right (fun c P => reports self net directory c /\ P) True ts' ->
            exists evs,
              for_each (map root ts') (fun f =>
                print (entry_line levels f) ;;
                if dir (f_attr f)
                then RecursiveFileList fuel self net
                       (directory ++ lit "/" ++ f_name f) (levels + 1)
                else ret tt) w0 = (Done tt, logged w0 evs) /\
              printed evs = entry_lines (flat_map (preorder levels) ts')).
  { clear Hh Hl Hrep w ts.
    induction ts' as [|[f cs] ts' IHts]; intros w0 Hh Hrep.
    - exists []. split; [|reflexivity].
      unfold logged. rewrite app_nil_r. destruct w0; reflexivity.
    - destruct Hrep as [Ht Hrest]. cbn [forest_height fold_right height] in Hh.
      cbn [map root]. rewrite for_each_cons. cbv beta. rewrite print_bind.
      cbn [reports] in Ht.
      destruct (dir (f_attr f)) eqn:Hd.
      + destruct Ht as [Hlc Hcs].
        destruct (IH (directory ++ lit "/" ++ f_name f) cs (levels + 1)
                    (logged w0 [EvPrint (entry_line levels f)])) as (e1 & E1 & Hp1).
        { unfold forest_height. lia. }
        { split; assumption. }
        destruct (IHts (logged (logged w0 [EvPrint (entry_line levels f)]) e1))
          as (e2 & E2 & Hp2).
        { unfold forest_height. lia. }
        { exact Hrest. }
        rewrite E1. cbv beta iota. rewrite E2.
        exists ([EvPrint (entry_line levels f)] ++ e1 ++ e2). split.
        * rewrite !logged_logged. reflexivity.
        * rewrite !printed_app, Hp1, Hp2. cbn [flat_map preorder].
          rewrite !entry_lines_app. reflexivity.
      + subst cs. unfold ret at 1.
        destruct (IHts (logged w0 [EvPrint (entry_line levels f)]))
          as (e2 & E2 & Hp2).
        { unfold forest_height. lia. }
        { exact Hrest. }
        cbv beta iota. rewrite E2.
        exists ([EvPrint (entry_line levels f)] ++ e2). split.
        * rewrite !logged_logged. reflexivity.
        * rewrite !printed_app, Hp2. cbn [flat_map preorder].
          rewrite !entry_lines_app. reflexivity. }
  destruct (Hloop ts (logged w [EvUrlopen (list_url self directory)]) Hh Hrep)
    as (evs & E & Hp).
  rewrite E.
  exists ([EvUrlopen (list_url self directory)] ++ evs). split.
  - rewrite logged_logged. reflexivity.
  - rewrite printed_app, Hp. reflexivity.
Qed.

(** C7. When the card reports a directory tree below [directory], the walk
    with enough fuel returns and prints the entries in depth-first
    pre-order: each directory before what is below it, all of that before
    its next sibling, siblings in the order of the listing.  For a listing
    [a (directory), b (file)] the line of [a] comes first, then the lines of
    what is below [a], then the line of [b]. *)
Theorem C7_walker_preorder
    (self : FlashAir) (net : network) (directory : str) (ts : list rtree)
    (levels : Z) (w : world) :
  reports_forest self net directory ts ->
  (exists fuel0, forall fuel, (fuel0 <= fuel)%nat ->
     exists evs,
       RecursiveFileList fuel self net directory levels w = (Done tt, logged w evs) /\
       printed evs = entry_lines (flat_map (preorder levels) ts)) /\
  (forall a cs b,
     flat_map (preorder levels) [RNode a cs; RNode b []] =
     (levels, a) :: flat_map (preorder (levels + 1)) cs ++ [(levels, b)]) /\
  printed (trace (snd (RecursiveFileList 2 card tree_net (lit "/") 0 empty_world))) =
    [lit "a/ | 2020-03-15 10:30:00";
     lit "  c.TXT | 3 bytes | 2020-03-15 10:30:00";
     lit "b.txt | 10 bytes | 2020-03-15 10:30:00"].
Proof.
  intros Hrep. split; [|split].
  - exists (S (forest_height ts)). intros fuel Hfuel.
    apply RecursiveFileList_preorder; [lia | exact Hrep].
  - intros a cs b. cbn [flat_map preorder]. rewrite app_nil_r.
    rewrite <- app_comm_cons. reflexivity.
  - vm_compute. reflexivity.
Qed.

Lemma C7_witness :
  exists fuel0, forall fuel, (fuel0 <= fuel)%nat ->
    exists evs,
      RecursiveFileList fuel card tree_net (lit "/") 0 empty_world =
        (Done tt, logged empty_world evs) /\
      printed evs = entry_lines (flat_map (preorder 0) tree_forest).
Proof.
  assert (Hrep : reports_forest card tree_net (lit "/") tree_forest).
  { vm_compute. repeat split. }
  exact (proj1 (C7_walker_preorder card tree_net (lit "/") tree_forest 0
                  empty_world Hrep)).
Defined.

(* ===================================================================== *)
(** * Further properties of the code *)
(* ===================================================================== *)

(** ** Further properties of the codec *)

Lemma land_mask_bounds a n :
  0 <= n -> 0 <= Z.land a (Z.ones n) < 2 ^ n.
Proof.
  intros Hn. rewrite Z.land_ones by exact Hn. apply Z.mod_pos_bound.
  apply Z.pow_pos_nonneg; lia.
Qed.

Lemma days_in_month_le y m : days_in_month y m <= 31.
Proof.
  unfold days_in_month. destruct (m =? 2); [destruct (is_leap y); lia|].
  destruct (_ || _); lia.
Qed.

Lemma datetime_new_ok y m d h mi s dt :
  datetime_new y m d h mi s = Ok dt ->
  dt = mk_datetime y m d h mi s /\
  check_date_fields y m d = true /\ check_time_fields h mi s = true.
Proof.
  unfold datetime_new.
  destruct (check_date_fields y m d) eqn:Ed; [|discriminate].
  destruct (check_time_fields h mi s) eqn:Et; [|discriminate].
  simpl. intros H. injection H as <-. auto.
Qed.

(** X1. Whatever integers the two words are, a decoded date lies between
    1980 and 2107, and its seconds are even and at most 58. *)
Theorem X1_decoded_ranges (d t : Z) (dt : datetime) :
  _DecodeDateAndTime d t = Ok dt ->
  1980 <= year dt <= 2107 /\ 1 <= month dt <= 12 /\ 1 <= day dt <= 31 /\
  0 <= hour dt <= 23 /\ 0 <= minute dt <= 59 /\
  0 <= second dt <= 58 /\ second dt mod 2 = 0.
Proof.
  unfold _DecodeDateAndTime. intros H.
  apply datetime_new_ok in H as (-> & Hd & Ht). cbn [year month day hour minute second].
  unfold check_date_fields in Hd. unfold check_time_fields in Ht.
  rewrite !andb_true_iff, !Z.leb_le in Hd, Ht.
  pose proof (land_mask_bounds (Z.shiftr d 9) 7 ltac:(lia)) as By.
  pose proof (land_mask_bounds t 5 ltac:(lia)) as Bs.
  change (Z.ones 7) with 127 in By. change (Z.ones 5) with 31 in Bs.
  change (2 ^ 7) with 128 in By. change (2 ^ 5) with 32 in Bs.
  pose proof (days_in_month_le (Z.land (Z.shiftr d 9) 127 + 1980)
                (Z.land (Z.shiftr d 5) 15)) as Bd.
  repeat split; try lia.
  apply Z_mod_mult.
Qed.

Lemma X1_witness :
  1980 <= year (mk_datetime 2020 3 15 10 30 0) <= 2107 /\
  second (mk_datetime 2020 3 15 10 30 0) mod 2 = 0.
Proof.
  assert (H : _DecodeDateAndTime 20591 21440 = Ok (mk_datetime 2020 3 15 10 30 0))
    by reflexivity.
  destruct (X1_decoded_ranges 20591 21440 _ H) as (Hy & _ & _ & _ & _ & _ & Hs).
  split; [exact Hy | exact Hs].
Defined.

(** X2. A time word whose hour field is above 23, whose minute field is above
    59 or whose seconds field is above 29 (a minute of 60 seconds or more)
    makes the decode raise [ValueError], whatever the date word. *)
Theorem X2_invalid_time_raises (d t : Z) :
  23 < Z.land (Z.shiftr t 11) 31 \/ 59 < Z.land (Z.shiftr t 5) 63 \/
  29 < Z.land t 31 ->
  _DecodeDateAndTime d t = Raise ValueError.
Proof.
  intros H. unfold _DecodeDateAndTime, datetime_new.
  assert (Hc : check_time_fields (Z.land (Z.shiftr t 11) 31)
                 (Z.land (Z.shiftr t 5) 63) (Z.land t 31 * 2) = false).
  { unfold check_time_fields. rewrite !andb_false_iff, !Z.leb_gt. lia. }
  rewrite Hc, andb_false_r. reflexivity.
Qed.

Lemma X2_witness :
  _DecodeDateAndTime 20591 (pack_time 24 0 0) = Raise ValueError /\
  _DecodeDateAndTime 20591 (pack_time 10 30 60) = Raise ValueError.
Proof.
  split.
  - apply X2_invalid_time_raises. left. vm_compute. reflexivity.
  - apply X2_invalid_time_raises. right. right. vm_compute. reflexivity.
Defined.

(** X3. Every date of the calendar from 1980 to 2107 with a time of even
    seconds, packed into the two words of the format, decodes to itself. *)
Theorem X3_pack_decode_roundtrip (y m d h mi s : Z) :
  1980 <= y <= 2107 -> valid_fields y m d h mi s = true -> s mod 2 = 0 ->
  _DecodeDateAndTime (pack_date y m d) (pack_time h mi s) =
    Ok (mk_datetime y m d h mi s).
Proof.
  intros Hy Hv Hs.
  pose proof Hv as Hv'. unfold valid_fields in Hv'.
  apply andb_true_iff in Hv' as [Hd Ht].
  unfold check_date_fields in Hd. unfold check_time_fields in Ht.
  rewrite !andb_true_iff, !Z.leb_le in Hd, Ht.
  pose proof (days_in_month_le y m) as Bd.
  rewrite decode_pack_roundtrip by lia.
  unfold datetime_new. unfold valid_fields in Hv. rewrite Hv. reflexivity.
Qed.

Lemma X3_witness :
  _DecodeDateAndTime (pack_date 2024 2 29) (pack_time 23 59 58) =
    Ok (mk_datetime 2024 2 29 23 59 58).
Proof.
  apply X3_pack_decode_roundtrip; [lia | reflexivity | reflexivity].
Defined.

(** X4. Two pairs of 16-bit words that decode to the same date and time are
    the same pair: the decode loses nothing of a valid timestamp. *)
Theorem X4_decode_injective (d t d' t' : Z) (dt : datetime) :
  0 <= d < 65536 -> 0 <= t < 65536 -> 0 <= d' < 65536 -> 0 <= t' < 65536 ->
  _DecodeDateAndTime d t = Ok dt -> _DecodeDateAndTime d' t' = Ok dt ->
  d = d' /\ t = t'.
Proof.
  intros Hd Ht Hd' Ht' H H'.
  unfold _DecodeDateAndTime in H, H'.
  apply datetime_new_ok in H as (E & _). apply datetime_new_ok in H' as (E' & _).
  rewrite E in E'. injection E' as Ey Em Edd Eh Emi Es.
  destruct (date_word_layout d Hd) as (_ & _ & _ & P).
  destruct (date_word_layout d' Hd') as (_ & _ & _ & P').
  destruct (time_word_layout t Ht) as (_ & _ & _ & Q).
  destruct (time_word_layout t' Ht') as (_ & _ & _ & Q').
  split.
  - rewrite <- P, <- P', Ey, Em, Edd. reflexivity.
  - rewrite <- Q, <- Q', Eh, Emi, Es. reflexivity.
Qed.

Lemma X4_witness : 20591 = 20591 /\ 21440 = 21440.
Proof.
  apply (X4_decode_injective 20591 21440 20591 21440 (mk_datetime 2020 3 15 10 30 0));
    try lia; reflexivity.
Defined.

(** ** Further properties of the listing decoder *)

Lemma GetFileList_loop_Forall2 lines : forall results files,
  GetFileList_loop lines results = Ok files <->
  exists decoded,
    files = results ++ decoded /\
    Forall2 (fun l f => GetFileList_line l = Ok f) lines decoded.
Proof.
  induction lines as [|l rest IH]; intros results files.
  - simpl. split.
    + intros H. injection H as <-. exists []. rewrite app_nil_r. split; constructor.
    + intros (decoded & -> & H). inversion H. rewrite app_nil_r. reflexivity.
  - cbn [GetFileList_loop]. split.
    + destruct (GetFileList_line l) as [f|e] eqn:E; cbn [res_bind]; [|discriminate].
      intros H. apply IH in H as (decoded & -> & H).
      exists (f :: decoded). rewrite <- app_assoc. split; [reflexivity|].
      constructor; assumption.
    + intros (decoded & -> & H). inversion H as [|? f ? decoded' Hl Hrest]; subst.
      rewrite Hl. cbn [res_bind]. apply IH. exists decoded'.
      rewrite <- app_assoc. split; [reflexivity | assumption].
Qed.

(** X5. With the header in place the listing is decoded exactly when every
    data line is, and then the records are the decoded lines, one for one
    and in the order of the response. *)
Theorem X5_listing_records_follow_lines (data : list str) (files : list File) :
  GetFileList_decode (HEADER :: data) = Ok files <->
  Forall2 (fun l f => GetFileList_line l = Ok f) data files.
Proof.
  rewrite GetFileList_decode_cons, bool_decide_eq_true_2 by reflexivity.
  rewrite GetFileList_loop_Forall2. split.
  - intros (decoded & -> & H). exact H.
  - intros H. exists files. split; [reflexivity | exact H].
Qed.

Lemma X5_witness :
  GetFileList_decode (HEADER :: [good_line; good_line]) = Ok [good_file; good_file].
Proof.
  apply (proj2 (X5_listing_records_follow_lines [good_line; good_line]
                  [good_file; good_file])).
  repeat constructor.
Defined.

Lemma split_join_long sep : forall firsts rest,
  Forall (fun f => sep ∉ f) firsts -> rest <> [] ->
  split sep (length firsts) (join sep (firsts ++ rest)) = firsts ++ [join sep rest].
Proof.
  induction firsts as [|f firsts IH]; intros rest Hfree Hne; [reflexivity|].
  inversion Hfree as [|? ? Hf Hrest]; subst.
  destruct (firsts ++ rest) as [|g tail] eqn:E.
  { apply app_eq_nil in E as [_ E]. congruence. }
  cbn [app length]. rewrite E, join_cons2, split_S, break_at_app by exact Hf.
  rewrite <- E. cbn [app]. f_equal. apply IH; assumption.
Qed.

Lemma rev_map_rev_involutive (l : list str) :
  rev (map (@rev ascii) (rev (map (@rev ascii) l))) = l.
Proof.
  rewrite map_rev, rev_involutive, map_map.
  rewrite <- (map_id l) at 2. apply map_ext. intros f. apply rev_involutive.
Qed.

(** When there are more fields than cuts, the cuts are made at the last
    separators and what is before them stays in one piece. *)
Lemma rsplit_join_long sep (pre lasts : list str) :
  pre <> [] -> Forall (fun f => sep ∉ f) lasts ->
  rsplit sep (length lasts) (join sep (pre ++ lasts)) = join sep pre :: lasts.
Proof.
  intros Hne Hfree. unfold rsplit.
  rewrite rev_join, map_app, rev_app_distr.
  replace (length lasts) with (length (rev (map (@rev ascii) lasts)))
    by (rewrite length_rev, length_map; reflexivity).
  rewrite split_join_long.
  - rewrite map_app, rev_app_distr. cbn [map rev app].
    rewrite <- rev_join, rev_involutive.
    rewrite <- (rev_map_rev_involutive lasts) at 2.
    rewrite map_rev. reflexivity.
  - apply Forall_rev, Forall_map. eapply Forall_impl; [exact Hfree|].
    intros f Hf. simpl. rewrite list_elem_of_In, <- in_rev, <- list_elem_of_In.
    exact Hf.
  - intros H. apply (f_equal (@rev str)) in H. rewrite rev_involutive in H.
    simpl in H. destruct pre; [congruence | discriminate].
Qed.

(** X6. A line of ASCII bytes with seven comma-separated fields or more is
    not refused for that: the cuts are made at its last six commas, so the last field is
    not read, the five before it are read as name, size, attribute, date and
    time, and everything before them, commas included, is the directory. *)
Theorem X6_extra_fields_shift
    (pre : list str) (name s a d t last : str) (size attr dw tw : Z)
    (dt : datetime) :
  pre <> [] ->
  is_ascii (join ","%char (pre ++ [name; s; a; d; t; last])) = true ->
  Forall (fun f => ","%char ∉ f) [name; s; a; d; t; last] ->
  py_int s = Ok size -> py_int a = Ok attr ->
  py_int d = Ok dw -> py_int t = Ok tw ->
  _DecodeDateAndTime dw tw = Ok dt ->
  GetFileList_line (join ","%char (pre ++ [name; s; a; d; t; last])) =
    Ok (mk_File (join ","%char pre) name size (_DecodeAttributes attr) dt).
Proof.
  intros Hne Hascii Hfree Hs Ha Hd Ht Hdt. unfold GetFileList_line, ascii_decode.
  rewrite Hascii. cbn [res_bind]. cbv zeta.
  change 6%nat with (length [name; s; a; d; t; last]).
  rewrite rsplit_join_long by assumption.
  unfold getitem. cbn [lookup list_lookup res_bind].
  rewrite Hs. cbn [res_bind]. rewrite Ha. cbn [res_bind].
  rewrite Hd. cbn [res_bind]. rewrite Ht. cbn [res_bind]. rewrite Hdt. reflexivity.
Qed.

Lemma X6_witness :
  GetFileList_line (lit "/DCIM,sub,IMG.JPG,10,32,20591,21440,7") =
    Ok (mk_File (lit "/DCIM,sub") (lit "IMG.JPG") 10 (_DecodeAttributes 32)
          (mk_datetime 2020 3 15 10 30 0)).
Proof.
  apply (X6_extra_fields_shift [lit "/DCIM"; lit "sub"] (lit "IMG.JPG") (lit "10")
           (lit "32") (lit "20591") (lit "21440") (lit "7") 10 32 20591 21440).
  - discriminate.
  - reflexivity.
  - apply (bool_decide_unpack _). vm_compute. exact I.
  - reflexivity.
  - reflexivity.
  - reflexivity.
  - reflexivity.
  - reflexivity.
Defined.

(** ** What the walker and the sync leave alone *)

Lemma logged_two w a b : logged w [a; b] = logged (logged w [a]) [b].
Proof. rewrite logged_logged. reflexivity. Qed.

Lemma list_url_card self directory :
  list_url self directory =
  lit "http://" ++ _address self ++ lit "/" ++
  lit "command.cgi?op=100&DIR=" ++ directory.
Proof.
  unfold list_url, _BuildOpUrl. cbn [truthy lit app list_ascii_of_string default].
  rewrite <- !app_assoc. reflexivity.
Qed.

Section RunRel.

Context (R : world -> world -> Prop) (Q : event -> Prop).
Hypothesis R_refl : forall w, R w w.
Hypothesis R_trans : forall w1 w2 w3, R w1 w2 -> R w2 w3 -> R w1 w3.
Hypothesis R_log : forall w e, Q e -> R w (logged w [e]).

Lemma run_rel_bind {A B} (m : M A) (k : A -> M B) :
  run_rel R m -> (forall a, run_rel R (k a)) -> run_rel R (x <- m ;; k x).
Proof.
  intros Hm Hk w o w' Hrun. unfold bind in Hrun.
  destruct (m w) as [[a|e|] w1] eqn:E1.
  - eapply R_trans; [exact (Hm _ _ _ E1) | exact (Hk a _ _ _ Hrun)].
  - injection Hrun as <- <-. exact (Hm _ _ _ E1).
  - injection Hrun as <- <-. exact (Hm _ _ _ E1).
Qed.

Lemma run_rel_for_each {A} (l : list A) (body : A -> M unit) :
  (forall x, x ∈ l -> run_rel R (body x)) -> run_rel R (for_each l body).
Proof.
  induction l as [|x l IH]; intros Hbody.
  - intros w o w' Hrun. injection Hrun as <- <-. apply R_refl.
  - cbn [for_each]. apply run_rel_bind.
    + apply Hbody. apply list_elem_of_here.
    + intros _. apply IH. intros y Hy. apply Hbody. apply list_elem_of_further, Hy.
Qed.

Lemma run_rel_print s : Q (EvPrint s) -> run_rel R (print s).
Proof. intros HQ w o w' Hrun. injection Hrun as <- <-. apply R_log, HQ. Qed.

Section Card.

Context (self : FlashAir) (net : network).
Hypothesis Q_print : forall s, Q (EvPrint s).
Hypothesis Q_list : forall directory, Q (EvUrlopen (list_url self directory)).

Lemma run_rel_GetFileList directory :
  run_rel R (GetFileList self net directory).
Proof.
  intros w o w' Hrun. rewrite GetFileList_listing in Hrun.
  injection Hrun as <- <-. apply R_log, Q_list.
Qed.

Lemma run_rel_RecursiveFileList fuel : forall directory levels,
  run_rel R (RecursiveFileList fuel self net directory levels).
Proof.
  induction fuel as [|fuel IH]; intros directory levels.
  - intros w o w' Hrun. injection Hrun as <- <-. apply R_refl.
  - cbn [RecursiveFileList]. apply run_rel_bind.
    + apply run_rel_GetFileList.
    + intros files. apply run_rel_for_each. intros f _.
      apply run_rel_bind; [apply run_rel_print, Q_print|].
      intros _. destruct (dir (f_attr f)); [apply IH|].
      intros w o w' Hrun. injection Hrun as <- <-. apply R_refl.
Qed.

Hypothesis Q_file : forall path, Q (EvUrlopen (_BuildFileUrl self path)).
Hypothesis R_mkdir : forall w p,
  fs w !! p = None -> R w (mk_world (<[p := NDir]> (fs w)) (trace w)).
Hypothesis R_write : forall w p contents,
  fs w !! p <> Some NDir -> R w (mk_world (<[p := NFile contents]> (fs w)) (trace w)).

Lemma run_rel_write_file p contents : run_rel R (write_file p contents).
Proof.
  intros w o w' Hrun. unfold write_file in Hrun.
  destruct (fs w !! p) as [[|old]|] eqn:E;
    [| |destruct (parent_is_dir (fs w) p)]; injection Hrun as <- <-;
    try apply R_refl; apply R_write; congruence.
Qed.

Lemma run_rel_Sync_file remote_file local_file f :
  run_rel R (Sync_file self net remote_file local_file f).
Proof.
  intros w o w' Hrun. rewrite Sync_file_cases in Hrun.
  assert (Hfw : forall msg,
            fetch_and_write self net remote_file local_file msg w = (o, w') ->
            R w w').
  { intros msg H. unfold fetch_and_write in H. rewrite logged_two in H.
    assert (R1 : R w (logged (logged w [EvPrint msg])
                        [EvUrlopen (_BuildFileUrl self remote_file)])).
    { eapply R_trans; apply R_log; [apply Q_print | apply Q_file]. }
    destruct (net (_BuildFileUrl self remote_file)) as [contents|e].
    - eapply R_trans; [exact R1 | exact (run_rel_write_file _ _ _ _ _ H)].
    - injection H as <- <-. exact R1. }
  destruct (fs w !! local_file) as [n|].
  - destruct (node_size n =? f_size f); [|eapply Hfw, Hrun].
    injection Hrun as <- <-. apply R_refl.
  - eapply Hfw, Hrun.
Qed.

Lemma run_rel_Sync_dir_prepare local_file :
  run_rel R (Sync_dir_prepare local_file).
Proof.
  intros w o w' Hrun. rewrite Sync_dir_prepare_cases in Hrun.
  destruct (fs w !! local_file) as [[|c]|] eqn:E;
    [| |destruct (parent_is_dir (fs w) local_file)]; injection Hrun as <- <-;
    try apply R_refl. apply R_mkdir, E.
Qed.

Lemma run_rel_Sync fuel : forall remote_dir local_dir force_lowercase,
  run_rel R (Sync fuel self net remote_dir local_dir force_lowercase).
Proof.
  induction fuel as [|fuel IH]; intros remote_dir local_dir force_lowercase.
  - intros w o w' Hrun. injection Hrun as <- <-. apply R_refl.
  - cbn [Sync]. apply run_rel_bind; [apply run_rel_print, Q_print|].
    intros _. apply run_rel_bind.
    { intros w o w' Hrun. rewrite os_path_exists_eq in Hrun.
      injection Hrun as <- <-. apply R_refl. }
    intros ex. destruct (negb ex).
    { intros w o w' Hrun. injection Hrun as <- <-. apply R_refl. }
    apply run_rel_bind; [apply run_rel_GetFileList|].
    intros files. apply run_rel_for_each. intros f _.
    unfold Sync_entry. apply run_rel_bind; [apply run_rel_print, Q_print|].
    intros _. destruct (dir (f_attr f)).
    + apply run_rel_bind; [apply run_rel_Sync_dir_prepare|]. intros _. apply IH.
    + apply run_rel_Sync_file.
Qed.

End Card.

End RunRel.

Lemma emits_refl Q w : emits Q w w.
Proof. exists []. rewrite app_nil_r. split; [reflexivity | constructor]. Qed.

Lemma emits_trans Q w1 w2 w3 : emits Q w1 w2 -> emits Q w2 w3 -> emits Q w1 w3.
Proof.
  intros (e1 & E1 & F1) (e2 & E2 & F2). exists (e1 ++ e2).
  rewrite E2, E1, <- app_assoc. split; [reflexivity | apply Forall_app; auto].
Qed.

Lemma emits_log (Q : event -> Prop) w e : Q e -> emits Q w (logged w [e]).
Proof. intros HQ. exists [e]. split; [reflexivity | repeat constructor; exact HQ]. Qed.

Lemma keeps_kind_refl o : keeps_kind o o.
Proof. destruct o as [[|c]|]; simpl; eauto. Qed.

Lemma keeps_kind_trans o1 o2 o3 :
  keeps_kind o1 o2 -> keeps_kind o2 o3 -> keeps_kind o1 o3.
Proof.
  destruct o1 as [[|c]|]; simpl; [| |trivial].
  - intros ->. trivial.
  - intros [c2 ->]. trivial.
Qed.

Lemma keeps_kinds_insert w p n :
  keeps_kind (fs w !! p) (Some n) ->
  keeps_kinds w (mk_world (<[p := n]> (fs w)) (trace w)).
Proof.
  intros H q. cbn [fs]. destruct (decide (p = q)) as [->|Hne].
  - rewrite lookup_insert_eq. exact H.
  - rewrite lookup_insert_ne by exact Hne. apply keeps_kind_refl.
Qed.

Lemma same_fs_trans w1 w2 w3 : same_fs w1 w2 -> same_fs w2 w3 -> same_fs w1 w3.
Proof. unfold same_fs. congruence. Qed.

Lemma RecursiveFileList_same_fs fuel self net directory levels :
  run_rel same_fs (RecursiveFileList fuel self net directory levels).
Proof.
  refine (run_rel_RecursiveFileList same_fs (fun _ => True) _ same_fs_trans _
            self net _ _ fuel directory levels); unfold same_fs; done.
Qed.

Lemma RecursiveFileList_emits (Q : event -> Prop) fuel self net directory levels :
  (forall s, Q (EvPrint s)) ->
  (forall d, Q (EvUrlopen (list_url self d))) ->
  run_rel (emits Q) (RecursiveFileList fuel self net directory levels).
Proof.
  intros Hp Hl.
  exact (run_rel_RecursiveFileList (emits Q) Q (emits_refl _) (emits_trans _)
           (emits_log _) self net Hp Hl fuel directory levels).
Qed.

Lemma list_url_card_event self directory :
  card_event self (EvUrlopen (list_url self directory)).
Proof. simpl. rewrite list_url_card. eauto. Qed.

Lemma Sync_emits_card fuel self net remote_dir local_dir force_lowercase :
  run_rel (emits (card_event self))
    (Sync fuel self net remote_dir local_dir force_lowercase).
Proof.
  refine (run_rel_Sync (emits (card_event self)) (card_event self)
            (emits_refl _) (emits_trans _) (emits_log _) self net _ _ _ _ _
            fuel remote_dir local_dir force_lowercase).
  - intros s. exact I.
  - apply list_url_card_event.
  - intros path. simpl. unfold _BuildFileUrl. eauto.
  - intros w0 p _. exists []. cbn [trace]. rewrite app_nil_r.
    split; [reflexivity | constructor].
  - intros w0 p c _. exists []. cbn [trace]. rewrite app_nil_r.
    split; [reflexivity | constructor].
Qed.

(** The requests among events of the card go to the card. *)
Lemma card_events_requested self evs :
  Forall (card_event self) evs ->
  Forall (fun u => exists rest,
            u = lit "http://" ++ _address self ++ lit "/" ++ rest)
         (requested evs).
Proof.
  induction 1 as [|e evs He _ IH]; [constructor|].
  destruct e as [l|u]; cbn [requested flat_map app]; [exact IH|].
  constructor; [exact He | exact IH].
Qed.

(** X7. However a walk ends, it has left the local tree as it was, and all it
    asked the network for are listings of the card. *)
Theorem X7_walker_reads_only
    (fuel : nat) (self : FlashAir) (net : network) (directory : str) (levels : Z)
    (w : world) (o : outcome unit) (w' : world) :
  RecursiveFileList fuel self net directory levels w = (o, w') ->
  fs w' = fs w /\
  exists evs, trace w' = trace w ++ evs /\ Forall (listing_event self) evs.
Proof.
  intros Hrun. split.
  - exact (RecursiveFileList_same_fs fuel self net directory levels w o w' Hrun).
  - refine (RecursiveFileList_emits (listing_event self) fuel self net directory
              levels _ _ w o w' Hrun).
    + intros s. exact I.
    + intros d. simpl. eauto.
Qed.

Lemma X7_witness :
  fs (snd (RecursiveFileList 2 card tree_net (lit "/") 0 (local_copy (lit "abc")))) =
  fs (local_copy (lit "abc")).
Proof.
  pose (run := RecursiveFileList 2 card tree_net (lit "/") 0 (local_copy (lit "abc"))).
  assert (Hrun : run = (fst run, snd run)) by apply surjective_pairing.
  exact (proj1 (X7_walker_reads_only 2 card tree_net (lit "/") 0
                  (local_copy (lit "abc")) (fst run) (snd run) Hrun)).
Defined.

(** X8. However a sync ends, every request it made went to the address of
    the card: each URL asked for starts with [http://address/]. *)
Theorem X8_sync_asks_the_card_only
    (fuel : nat) (self : FlashAir) (net : network)
    (remote_dir local_dir : str) (force_lowercase : bool)
    (w : world) (o : outcome unit) (w' : world) :
  Sync fuel self net remote_dir local_dir force_lowercase w = (o, w') ->
  exists evs,
    trace w' = trace w ++ evs /\
    Forall (fun u => exists rest,
              u = lit "http://" ++ _address self ++ lit "/" ++ rest)
           (requested evs).
Proof.
  intros Hrun.
  destruct (Sync_emits_card fuel self net remote_dir local_dir force_lowercase
              w o w' Hrun) as (evs & Htr & Hall).
  exists evs. split; [exact Htr | apply card_events_requested, Hall].
Qed.

Lemma X8_witness :
  exists evs,
    trace (snd (Sync 2 card tree_net (lit "/") (lit "/mnt") true (local_tree None))) =
      trace (local_tree None) ++ evs /\
    Forall (fun u => exists rest,
              u = lit "http://" ++ _address card ++ lit "/" ++ rest)
           (requested evs).
Proof.
  pose (run := Sync 2 card tree_net (lit "/") (lit "/mnt") true (local_tree None)).
  assert (Hrun : run = (fst run, snd run)) by apply surjective_pairing.
  exact (X8_sync_asks_the_card_only 2 card tree_net (lit "/") (lit "/mnt") true
           (local_tree None) (fst run) (snd run) Hrun).
Defined.

(** X9. However a sync ends, what was a directory before it is a directory
    after it, and what was a file is a file (with its old or a new content):
    the sync never puts a file in the place of a directory, nor a directory
    in the place of a file. *)
Theorem X9_sync_keeps_kinds
    (fuel : nat) (self : FlashAir) (net : network)
    (remote_dir local_dir : str) (force_lowercase : bool)
    (w : world) (o : outcome unit) (w' : world) :
  Sync fuel self net remote_dir local_dir force_lowercase w = (o, w') ->
  forall p,
    (fs w !! p = Some NDir -> fs w' !! p = Some NDir) /\
    (forall old, fs w !! p = Some (NFile old) ->
       exists contents, fs w' !! p = Some (NFile contents)).
Proof.
  intros Hrun p.
  assert (Hk : keeps_kinds w w').
  { refine (run_rel_Sync keeps_kinds (fun _ => True) _ _ _ self net _ _ _ _ _
              fuel remote_dir local_dir force_lowercase w o w' Hrun); try done.
    - intros w0 q. apply keeps_kind_refl.
    - intros w1 w2 w3 H1 H2 q. eapply keeps_kind_trans; [apply H1 | apply H2].
    - intros w0 e _ q. apply keeps_kind_refl.
    - intros w0 q Hq. apply keeps_kinds_insert. rewrite Hq. exact I.
    - intros w0 q c Hq. apply keeps_kinds_insert.
      destruct (fs w0 !! q) as [[|old]|]; simpl; [congruence | eauto | exact I]. }
  specialize (Hk p). split.
  - intros E. rewrite E in Hk. exact Hk.
  - intros old E. rewrite E in Hk. exact Hk.
Qed.

Lemma X9_witness :
  fs (snd (Sync 2 card tree_net (lit "/") (lit "/mnt") true (local_tree None)))
    !! lit "/mnt" = Some NDir.
Proof.
  pose (run := Sync 2 card tree_net (lit "/") (lit "/mnt") true (local_tree None)).
  assert (Hrun : run = (fst run, snd run)) by apply surjective_pairing.
  apply (X9_sync_keeps_kinds 2 card tree_net (lit "/") (lit "/mnt") true
           (local_tree None) (fst run) (snd run) Hrun (lit "/mnt")).
  vm_compute. reflexivity.
Defined.

(** ** Edges of the listing and of the sync *)

Lemma listing_of_lines self net directory body :
  net (list_url self directory) = Ok body ->
  listing self net directory = GetFileList_decode (map strip (readlines body)).
Proof. intros H. unfold listing. rewrite H. reflexivity. Qed.

(** X10. A sync into a local directory that does not exist raises
    [ValueError] after its first line of output: the card is not asked for
    anything and the local tree is left as it is. *)
Theorem X10_sync_missing_target
    (fuel : nat) (self : FlashAir) (net : network)
    (remote_dir local_dir : str) (force_lowercase : bool) (w : world) :
  fs w !! local_dir = None ->
  Sync (S fuel) self net remote_dir local_dir force_lowercase w =
    (Raised ValueError,
     logged w [EvPrint (lit "Syncing " ++ remote_dir ++ lit " -> " ++ local_dir)]) /\
  requested (trace (snd (Sync (S fuel) self net remote_dir local_dir
                           force_lowercase w))) = requested (trace w) /\
  fs (snd (Sync (S fuel) self net remote_dir local_dir force_lowercase w)) = fs w.
Proof.
  intros H. rewrite Sync_unfold. cbv zeta. rewrite H. split; [reflexivity|].
  cbn [snd logged trace fs]. split; [|reflexivity].
  unfold requested. rewrite flat_map_app. cbn [flat_map]. apply app_nil_r.
Qed.

Lemma X10_witness :
  Sync 1 card one_file_net (lit "/DCIM") (lit "/nowhere") true empty_world =
    (Raised ValueError,
     logged empty_world [EvPrint (lit "Syncing /DCIM -> /nowhere")]).
Proof.
  apply (X10_sync_missing_target 0 card one_file_net (lit "/DCIM") (lit "/nowhere")
           true empty_world).
  reflexivity.
Defined.

(** X11. A response without any line makes the listing raise [IndexError]
    (at [lines[0]], before the [assert]); the walk raises it with nothing
    printed, and a sync into an existing directory raises it with the local
    tree left as it is. *)
Theorem X11_empty_response_raises
    (fuel : nat) (self : FlashAir) (net : network)
    (directory local_dir : str) (force_lowercase : bool) (levels : Z)
    (w : world) (body : str) :
  net (list_url self directory) = Ok body ->
  map strip (readlines body) = [] ->
  GetFileList self net directory w =
    (Raised IndexError, logged w [EvUrlopen (list_url self directory)]) /\
  RecursiveFileList (S fuel) self net directory levels w =
    (Raised IndexError, logged w [EvUrlopen (list_url self directory)]) /\
  (is_Some (fs w !! local_dir) ->
   fst (Sync (S fuel) self net directory local_dir force_lowercase w) =
     Raised IndexError /\
   fs (snd (Sync (S fuel) self net directory local_dir force_lowercase w)) = fs w).
Proof.
  intros Hnet Hlines.
  assert (Hl : listing self net directory = Raise IndexError).
  { rewrite (listing_of_lines _ _ _ _ Hnet), Hlines. reflexivity. }
  split; [|split].
  - rewrite GetFileList_listing, Hl. reflexivity.
  - rewrite RecursiveFileList_unfold, Hl. reflexivity.
  - intros [n Hn]. rewrite Sync_unfold. cbv zeta. rewrite Hn, Hl.
    split; reflexivity.
Qed.

Lemma X11_witness :
  GetFileList card (serve (list_url card (lit "/")) [] no_network) (lit "/")
    empty_world =
  (Raised IndexError, logged empty_world [EvUrlopen (list_url card (lit "/"))]).
Proof.
  apply (X11_empty_response_raises 0 card
           (serve (list_url card (lit "/")) [] no_network) (lit "/") (lit "/mnt")
           true 0 empty_world []).
  - vm_compute. reflexivity.
  - reflexivity.
Defined.

(** X12. A response of the header alone is an empty directory: the listing
    is the empty list, the walk returns with nothing printed and one
    request made, and a sync into an existing directory returns with the
    local tree left as it is. *)
Theorem X12_header_only_is_empty
    (fuel : nat) (self : FlashAir) (net : network)
    (directory local_dir : str) (force_lowercase : bool) (levels : Z)
    (w : world) (body : str) :
  net (list_url self directory) = Ok body ->
  map strip (readlines body) = [HEADER] ->
  GetFileList self net directory w =
    (Done [], logged w [EvUrlopen (list_url self directory)]) /\
  RecursiveFileList (S fuel) self net directory levels w =
    (Done tt, logged w [EvUrlopen (list_url self directory)]) /\
  (is_Some (fs w !! local_dir) ->
   fst (Sync (S fuel) self net directory local_dir force_lowercase w) = Done tt /\
   fs (snd (Sync (S fuel) self net directory local_dir force_lowercase w)) = fs w).
Proof.
  intros Hnet Hlines.
  assert (Hl : listing self net directory = Ok []).
  { rewrite (listing_of_lines _ _ _ _ Hnet), Hlines. reflexivity. }
  split; [|split].
  - rewrite GetFileList_listing, Hl. reflexivity.
  - rewrite RecursiveFileList_unfold, Hl. reflexivity.
  - intros [n Hn]. rewrite Sync_unfold. cbv zeta. rewrite Hn, Hl.
    split; reflexivity.
Qed.

Lemma X12_witness :
  RecursiveFileList 1 card (serve (list_url card (lit "/")) (response []) no_network)
    (lit "/") 0 empty_world =
  (Done tt, logged empty_world [EvUrlopen (list_url card (lit "/"))]).
Proof.
  apply (X12_header_only_is_empty 0 card
           (serve (list_url card (lit "/")) (response []) no_network)
           (lit "/") (lit "/mnt") true 0 empty_world (response [])).
  - vm_compute. reflexivity.
  - vm_compute. reflexivity.
Defined.






Lemma os_path_join_absolute a b : startswith_slash b = true -> os_path_join a b = b.
Proof. intros H. unfold os_path_join. rewrite H. reflexivity. Qed.

(** X14. For a record whose name starts with [/], neither [remote_dir] nor
    [local_dir] has any part in what [Sync] does with it: [os.path.join]
    drops them, the file is asked for at the name and written at the name
    (in lower case with [force_lowercase]), outside the target directory. *)
Theorem X14_absolute_name_leaves_target
    (self : FlashAir) (net : network) (recurse : str -> str -> bool -> M unit)
    (remote_dir local_dir remote_dir' local_dir' : str) (force_lowercase : bool)
    (f : File) (w : world) :
  startswith_slash (f_name f) = true ->
  local_file_of local_dir (f_name f) force_lowercase =
    (if force_lowercase then lower (f_name f) else f_name f) /\
  Sync_entry self net recurse remote_dir local_dir force_lowercase f w =
  Sync_entry self net recurse remote_dir' local_dir' force_lowercase f w.
Proof.
  intros H. unfold Sync_entry, local_file_of.
  rewrite !(os_path_join_absolute _ _ H). split; reflexivity.
Qed.

Lemma X14_witness :
  local_file_of (lit "/mnt") (lit "/etc/passwd") false = lit "/etc/passwd".
Proof.
  apply (X14_absolute_name_leaves_target card no_network (fun _ _ _ => ret tt)
           (lit "/") (lit "/mnt") (lit "/") (lit "/mnt") false
           (mk_File (lit "/") (lit "/etc/passwd") 0 (_DecodeAttributes 32)
              (mk_datetime 2020 3 15 10 30 0)) empty_world).
  reflexivity.
Defined.

Lemma write_file_done p contents w w' :
  write_file p contents w = (Done tt, w') ->
  fs w' = <[p := NFile contents]> (fs w).
Proof.
  unfold write_file. intros H.
  destruct (fs w !! p) as [[|old]|]; [discriminate | |
    destruct (parent_is_dir (fs w) p); [|discriminate]];
    injection H as <-; reflexivity.
Qed.

Lemma needs_fetch_cases m local_file f :
  needs_fetch m local_file f ->
  forall self net remote_file w, fs w = m ->
  exists msg,
    Sync_file self net remote_file local_file f w =
    fetch_and_write self net remote_file local_file msg w.
Proof.
  intros Hn self net remote_file w <-. rewrite Sync_file_cases.
  apply needs_fetch_dec in Hn.
  destruct (fs w !! local_file) as [n|]; [rewrite Hn|]; eauto.
Qed.

(** X15. When an entry has been fetched and written, the same entry is due
    for a fetch again exactly when the content received is not as long as
    the size in the record: a content of the reported size settles the
    entry, any other is fetched again by every later sync. *)
Theorem X15_fetched_entry_settles_iff_size_matches
    (self : FlashAir) (net : network) (recurse : str -> str -> bool -> M unit)
    (remote_dir local_dir : str) (force_lowercase : bool) (f : File)
    (w w' : world) (contents : str) :
  dir (f_attr f) = false ->
  let remote_file := os_path_join remote_dir (f_name f) in
  let local_file := local_file_of local_dir (f_name f) force_lowercase in
  needs_fetch (fs w) local_file f ->
  net (_BuildFileUrl self remote_file) = Ok contents ->
  Sync_entry self net recurse remote_dir local_dir force_lowercase f w = (Done tt, w') ->
  fs w' !! local_file = Some (NFile contents) /\
  (needs_fetch (fs w') local_file f <-> Z.of_nat (length contents) <> f_size f).
Proof.
  intros Hd remote_file local_file Hn Hnet Hrun.
  rewrite Sync_entry_file in Hrun by exact Hd.
  destruct (needs_fetch_cases _ _ _ Hn self net remote_file
              (logged w [EvPrint (f_name f)]) eq_refl) as [msg E].
  fold remote_file local_file in Hrun. rewrite E in Hrun.
  unfold fetch_and_write in Hrun. rewrite Hnet in Hrun.
  apply write_file_done in Hrun. cbn [logged fs] in Hrun.
  assert (Hl : fs w' !! local_file = Some (NFile contents)).
  { rewrite Hrun. apply lookup_insert_eq. }
  split; [exact Hl|].
  rewrite needs_fetch_dec, Hl. cbn [node_size]. apply Z.eqb_neq.
Qed.

Lemma X15_witness :
  fs (snd (Sync_entry card one_file_net (Sync 0 card one_file_net)
             (lit "/DCIM") (lit "/mnt") true good_file (local_copy (lit "abcdefgh"))))
    !! lit "/mnt/img.jpg" = Some (NFile (lit "0123456789")).
Proof.
  pose (run := Sync_entry card one_file_net (Sync 0 card one_file_net)
                 (lit "/DCIM") (lit "/mnt") true good_file
                 (local_copy (lit "abcdefgh"))).
  assert (Hrun : run = (Done tt, snd run)) by (vm_compute; reflexivity).
  refine (proj1 (X15_fetched_entry_settles_iff_size_matches card one_file_net
                   (Sync 0 card one_file_net) (lit "/DCIM") (lit "/mnt") true
                   good_file (local_copy (lit "abcdefgh")) (snd run)
                   (lit "0123456789") _ _ _ Hrun)).
  - reflexivity.
  - right. exists (NFile (lit "abcdefgh")). split; [reflexivity | vm_compute; discriminate].
  - vm_compute. reflexivity.
Defined.

Lemma node_size_nonneg n : 0 <= node_size n.
Proof. destruct n; simpl; [unfold DIR_ST_SIZE|]; lia. Qed.

(** X16. A record with a negative size (the decoder takes a signed number)
    is never settled: whatever is at the local path, the entry is fetched
    from the card, on every sync. *)
Theorem X16_negative_size_always_fetched
    (self : FlashAir) (net : network) (recurse : str -> str -> bool -> M unit)
    (remote_dir local_dir : str) (force_lowercase : bool) (f : File)
    (w : world) (o : outcome unit) (w' : world) :
  dir (f_attr f) = false -> f_size f < 0 ->
  Sync_entry self net recurse remote_dir local_dir force_lowercase f w = (o, w') ->
  needs_fetch (fs w) (local_file_of local_dir (f_name f) force_lowercase) f /\
  exists msg,
    trace w' = trace w ++
      [EvPrint (f_name f); EvPrint msg;
       EvUrlopen (_BuildFileUrl self (os_path_join remote_dir (f_name f)))].
Proof.
  intros Hd Hneg Hrun.
  assert (Hn : forall m p, needs_fetch m p f).
  { intros m p. unfold needs_fetch. destruct (m !! p) as [n|]; [|auto].
    right. exists n. split; [reflexivity|]. pose proof (node_size_nonneg n). lia. }
  split; [apply Hn|].
  rewrite Sync_entry_file in Hrun by exact Hd.
  destruct (needs_fetch_cases _ _ _
              (Hn (fs (logged w [EvPrint (f_name f)]))
                  (local_file_of local_dir (f_name f) force_lowercase))
              self net (os_path_join remote_dir (f_name f))
              (logged w [EvPrint (f_name f)]) eq_refl) as [msg E].
  rewrite E in Hrun. apply fetch_and_write_spec in Hrun as [Htr _].
  exists msg. rewrite Htr. cbn [logged trace]. rewrite <- app_assoc. reflexivity.
Qed.

Lemma X16_witness :
  needs_fetch (fs (local_copy (lit "abc")))
    (local_file_of (lit "/mnt") (lit "IMG.JPG") true)
    (mk_File (lit "/DCIM") (lit "IMG.JPG") (-3) (_DecodeAttributes 32)
       (mk_datetime 2020 3 15 10 30 0)).
Proof.
  pose (f := mk_File (lit "/DCIM") (lit "IMG.JPG") (-3) (_DecodeAttributes 32)
               (mk_datetime 2020 3 15 10 30 0)).
  pose (run := Sync_entry card one_file_net (Sync 0 card one_file_net)
                 (lit "/DCIM") (lit "/mnt") true f (local_copy (lit "abc"))).
  assert (Hrun : run = (fst run, snd run)) by apply surjective_pairing.
  refine (proj1 (X16_negative_size_always_fetched card one_file_net
                   (Sync 0 card one_file_net) (lit "/DCIM") (lit "/mnt") true f
                   (local_copy (lit "abc")) (fst run) (snd run) _ _ Hrun)).
  - reflexivity.
  - reflexivity.
Defined.

(** X17. Different directories are asked for at different URLs, and so are
    different files; the listing URL is the card address followed by
    [/command.cgi?op=100&DIR=] and the directory, with the [&DIR=] part put
    even for the empty directory. *)
Theorem X17_urls_tell_paths_apart (self : FlashAir) (a b : str) :
  (list_url self a = list_url self b -> a = b) /\
  (_BuildFileUrl self a = _BuildFileUrl self b -> a = b) /\
  list_url self a =
    lit "http://" ++ _address self ++ lit "/command.cgi?op=100&DIR=" ++ a.
Proof.
  split; [|split].
  - rewrite !list_url_card. intros H.
    repeat (apply app_inv_head in H). exact H.
  - unfold _BuildFileUrl. intros H. repeat (apply app_inv_head in H). exact H.
  - rewrite list_url_card. reflexivity.
Qed.

Lemma X17_witness :
  list_url card (lit "/DCIM") = lit "http://flashair/command.cgi?op=100&DIR=/DCIM".
Proof.
  exact (proj2 (proj2 (X17_urls_tell_paths_apart card (lit "/DCIM") (lit "/DCIM")))).
Defined.

Lemma startswith_slash_no_slash name :
  "/"%char ∉ name -> startswith_slash name = false.
Proof.
  destruct name as [|c name]; [reflexivity|]. intros H.
  apply not_elem_of_cons in H as [Hc _]. simpl.
  destruct c as [[] [] [] [] [] [] [] []]; try reflexivity. congruence.
Qed.

Lemma parent_path_join local_dir name :
  local_dir <> [] -> "/"%char ∉ name ->
  parent_path (local_dir ++ lit "/" ++ name) = Some local_dir.
Proof.
  intros Hne Hname. unfold parent_path.
  rewrite rev_app_distr. cbn [lit list_ascii_of_string app].
  change (rev ("/"%char :: name)) with (rev name ++ ["/"%char]).
  rewrite <- app_assoc. cbn [app]. rewrite break_at_app.
  - destruct (rev local_dir) as [|c rd] eqn:E.
    + apply (f_equal (@rev ascii)) in E. rewrite rev_involutive in E.
      simpl in E. congruence.
    + rewrite <- E, rev_involutive. reflexivity.
  - rewrite list_elem_of_In, <- in_rev, <- list_elem_of_In. exact Hname.
Qed.

Lemma lower_char_slash c : lower_char c = "/"%char -> c = "/"%char.
Proof.
  destruct c as [[] [] [] [] [] [] [] []]; vm_compute; intros H;
    solve [reflexivity | discriminate H].
Qed.

Lemma lower_no_slash name : "/"%char ∉ name -> "/"%char ∉ lower name.
Proof.
  intros Hname Hin. apply Hname. unfold lower in Hin.
  apply list_elem_of_In, in_map_iff in Hin as (c & Hc & Hin).
  apply lower_char_slash in Hc as ->. apply list_elem_of_In, Hin.
Qed.

Lemma local_file_of_plain local_dir name force_lowercase :
  (force_lowercase = true -> lower local_dir = local_dir) ->
  local_dir <> [] -> endswith_slash local_dir = false ->
  "/"%char ∉ name ->
  exists name',
    ("/"%char ∉ name') /\
    local_file_of local_dir name force_lowercase = local_dir ++ lit "/" ++ name'.
Proof.
  intros Hlow Hne Hend Hname.
  assert (Hj : os_path_join local_dir name = local_dir ++ lit "/" ++ name).
  { unfold os_path_join.
    rewrite (startswith_slash_no_slash _ Hname), Hend.
    rewrite bool_decide_eq_false_2 by exact Hne. reflexivity. }
  unfold local_file_of. rewrite Hj. destruct force_lowercase.
  - exists (lower name). split; [apply lower_no_slash, Hname|].
    unfold lower. rewrite !map_app. fold (lower local_dir).
    rewrite (Hlow eq_refl). reflexivity.
  - exists name. split; [exact Hname | reflexivity].
Qed.

(** X18. [Sync] asks only that [local_dir] exists, not that it is a
    directory: into a regular file (one whose path case folding leaves as
    it is, when [force_lowercase] is set) the call goes on, asks the card
    for the listing and for the first file of it, and only then fails, with
    the [IOError] of the write, the local tree left as it is. *)
Theorem X18_sync_into_a_file_fetches_then_fails
    (fuel : nat) (self : FlashAir) (net : network)
    (remote_dir local_dir : str) (force_lowercase : bool)
    (f : File) (rest : list File)
    (w : world) (old contents : str) :
  fs w !! local_dir = Some (NFile old) ->
  (force_lowercase = true -> lower local_dir = local_dir) ->
  local_dir <> [] -> endswith_slash local_dir = false ->
  listing self net remote_dir = Ok (f :: rest) ->
  dir (f_attr f) = false -> "/"%char ∉ f_name f ->
  fs w !! local_file_of local_dir (f_name f) force_lowercase = None ->
  net (_BuildFileUrl self (os_path_join remote_dir (f_name f))) = Ok contents ->
  Sync (S fuel) self net remote_dir local_dir force_lowercase w =
    (Raised IOError,
     logged w
       [EvPrint (lit "Syncing " ++ remote_dir ++ lit " -> " ++ local_dir);
        EvUrlopen (list_url self remote_dir);
        EvPrint (f_name f);
        EvPrint (lit "  does not exist locally, fetching...");
        EvUrlopen (_BuildFileUrl self (os_path_join remote_dir (f_name f)))]).
Proof.
  intros Hfile Hlow Hne Hend Hl Hd Hname Habs Hnet.
  destruct (local_file_of_plain local_dir (f_name f) force_lowercase
              Hlow Hne Hend Hname) as (name' & Hname' & Hlf).
  rewrite Sync_unfold. cbv zeta. rewrite Hfile, Hl, for_each_cons.
  rewrite Sync_entry_file by exact Hd. rewrite Hlf in *. rewrite Sync_file_cases.
  cbn [logged fs]. rewrite Habs. unfold fetch_and_write. rewrite Hnet.
  unfold write_file. cbn [logged fs]. rewrite Habs.
  unfold parent_is_dir. rewrite parent_path_join by assumption.
  rewrite Hfile. cbn [is_dir_node]. unfold logged. cbn [fs trace].
  rewrite <- !app_assoc. reflexivity.
Qed.

Lemma X18_witness :
  fst (Sync 1 card one_file_net (lit "/DCIM") (lit "/mnt/img.jpg") true
         (local_copy (lit "abc"))) = Raised IOError.
Proof.
  refine (f_equal fst
            (X18_sync_into_a_file_fetches_then_fails 0 card one_file_net
               (lit "/DCIM") (lit "/mnt/img.jpg") true good_file []
               (local_copy (lit "abc"))
               (lit "abc") (lit "0123456789") _ _ _ _ _ _ _ _ _)).
  - reflexivity.
  - intros _. reflexivity.
  - discriminate.
  - reflexivity.
  - vm_compute. reflexivity.
  - reflexivity.
  - apply (bool_decide_unpack _). vm_compute. exact I.
  - vm_compute. reflexivity.
  - vm_compute. reflexivity.
Defined.

(** ** The command line *)



